(** * scripts/summarization.py: a shallow embedding

    The script fine-tunes a pretrained encoder-decoder on a summarization
    dataset.  Its first-party logic is a dataset adapter, a batch collator,
    the teacher-forcing [forward], the training and validation steps, the
    epoch-level metric reduction and the trainer configuration of [main].

    Conventions of the embedding:
    - a 1-D LongTensor is a [list Z], a 2-D LongTensor a list of rows;
    - Python exceptions are values of [exn], fallible code returns [result];
    - calls into the frameworks (transformers, rouge_score, pytorch_lightning)
      go through a record of the frameworks' answers and are logged in a
      trace, so that what the script passes to them and how often it calls
      them can be stated;
    - floating-point arithmetic is an interface [Scalar] with two instances:
      IEEE binary64 (what Python executes) and exact rationals. *)

From Stdlib Require Import String ZArith QArith Floats Bool Lia List.
Import ListNotations.

Close Scope Q_scope.
Open Scope nat_scope.

Set Implicit Arguments.

(** ** Exceptions and results *)

Inductive exn : Type :=
| ZeroDivisionError
| ValueError
| IndexError
| RuntimeError
| KeyError
| FrameworkError (what : string).

Inductive result (A : Type) : Type :=
| Ok (a : A)
| Raise (e : exn).

Arguments Ok {A} a.
Arguments Raise {A} e.

Definition rbind {A B : Type} (r : result A) (k : A -> result B) : result B :=
  match r with
  | Ok a => k a
  | Raise e => Raise e
  end.

Declare Scope result_scope.
Delimit Scope result_scope with result.
Notation "x <- r ;; k" := (rbind r (fun x => k))
  (at level 61, r at next level, right associativity) : result_scope.

(** ** Tensors *)

Definition tensor1 : Type := list Z.
Definition tensor2 : Type := list (list Z).
Definition btensor2 : Type := list (list bool).

(** [t.numel()] of a 2-D tensor. *)
Definition numel (t : tensor2) : Z :=
  Z.of_nat (length t) * Z.of_nat (length (hd [] t)).

Definition rectangular (cols : nat) (t : tensor2) : Prop :=
  Forall (fun row => length row = cols) t.

(** [sequences[0].new_full((rows, cols), v)] *)
Definition new_full (rows cols : nat) (v : Z) : tensor2 :=
  repeat (repeat v cols) rows.

(** [row[:length] = t] where [length = len(t)] *)
Definition assign_prefix (row t : tensor1) : tensor1 :=
  t ++ skipn (length t) row.

(** [for i, tensor in enumerate(sequences): out[i, :length] = tensor] *)
Fixpoint fill_rows (out : tensor2) (sequences : list tensor1) : tensor2 :=
  match out, sequences with
  | row :: out', t :: sequences' => assign_prefix row t :: fill_rows out' sequences'
  | _, _ => out
  end.

Definition max_len (sequences : list tensor1) : nat :=
  list_max (map (@length Z) sequences).

(** [torch.nn.utils.rnn.pad_sequence(sequences, batch_first=True,
    padding_value=v)]: allocate a [len(sequences) x max_len] tensor full of
    [v] and copy each sequence over the start of its row.  An empty list has
    no [sequences[0]]. *)
Definition pad_sequence (sequences : list tensor1) (padding_value : Z)
  : result tensor2 :=
  match sequences with
  | [] => Raise IndexError
  | _ :: _ =>
      Ok (fill_rows (new_full (length sequences) (max_len sequences) padding_value)
                    sequences)
  end.

(** ** SummarizationDataset *)

Record Entry : Type := { article : string; abstract : string }.

(** The tokenizer of the transformers library, as far as the script uses it. *)
Record Tokenizer : Type := {
  encode : string -> bool -> Z -> tensor1;   (* text, truncation, max_length *)
  pad_token_id : Z;
  batch_decode : tensor2 -> bool -> result (list string)
                                             (* ids, skip_special_tokens *)
}.

Record SummarizationDataset : Type := {
  hf_dataset : list Entry;
  ds_tokenizer : Tokenizer;
  max_input_len : Z;
  max_output_len : Z
}.

Definition dataset_len (self : SummarizationDataset) : nat :=
  length (hf_dataset self).

(** [__getitem__]: the sampler hands out indices in [0, len). *)
Definition getitem (self : SummarizationDataset) (idx : nat)
  : result (tensor1 * tensor1) :=
  match nth_error (hf_dataset self) idx with
  | None => Raise IndexError
  | Some entry =>
      let input_ids :=
        encode (ds_tokenizer self) (article entry) true (max_input_len self) in
      let output_ids :=
        encode (ds_tokenizer self) (abstract entry) true (max_output_len self) in
      Ok (input_ids, output_ids)
  end.

(** The pad value the collator is written with. *)
Definition collate_pad_token_id : Z := 1.

(** [collate_fn]: [zip( *batch)] of an empty batch yields nothing to unpack. *)
Definition collate_fn (batch : list (tensor1 * tensor1))
  : result (tensor2 * tensor2) :=
  let pad_token_id := collate_pad_token_id in
  match batch with
  | [] => Raise ValueError
  | _ :: _ =>
      let '(input_ids, output_ids) := split batch in
      (input_ids <- pad_sequence input_ids pad_token_id ;;
       output_ids <- pad_sequence output_ids pad_token_id ;;
       Ok (input_ids, output_ids))%result
  end.

(** ** Floating-point arithmetic as an interface *)

Class Scalar (F : Type) : Type := {
  f0 : F;                    (* 0.0 *)
  fadd : F -> F -> F;
  fdiv : F -> F -> F;
  of_int : Z -> F            (* int -> float, as in [float / int] *)
}.

(** IEEE 754 binary64: Python's [float], and torch's float64. *)
#[export] Instance binary64 : Scalar float := {|
  f0 := 0%float;
  fadd := PrimFloat.add;
  fdiv := PrimFloat.div;
  of_int := fun z =>
    if (z <? 0)%Z
    then PrimFloat.opp (PrimFloat.of_uint63 (Uint63.of_Z (- z)))
    else PrimFloat.of_uint63 (Uint63.of_Z z)
|}.

(** Exact rational arithmetic: the same programs without rounding. *)
#[export] Instance exact : Scalar Q := {|
  f0 := 0%Q;
  fadd := Qplus;
  fdiv := Qdiv;
  of_int := inject_Z
|}.

(** [acc = 0.0; for x in xs: acc += x] *)
Definition accumulate {F : Type} `{Scalar F} (xs : list F) : F :=
  fold_left fadd xs f0.

(** Python's [x / n] for a float [x] and an int [n]. *)
Definition py_div {F : Type} `{Scalar F} (x : F) (n : nat) : result F :=
  match n with
  | O => Raise ZeroDivisionError
  | S _ => Ok (fdiv x (of_int (Z.of_nat n)))
  end.

(** [torch.stack(xs).mean()]: [stack] refuses an empty list; the mean is the
    sum of the elements over their number, whatever the order torch adds them
    in. *)
Definition stack_mean {F : Type} `{Scalar F} (xs : list F) : result F :=
  match xs with
  | [] => Raise RuntimeError
  | _ :: _ => Ok (fdiv (accumulate xs) (of_int (Z.of_nat (length xs))))
  end.

(** ** Tensor operations used by [forward] *)

(** [torch.ones(t.shape, dtype=torch.long)] *)
Definition ones_like (t : tensor2) : tensor2 :=
  map (map (fun _ : Z => 1%Z)) t.

(** [t == v] and [t != v], elementwise. *)
Definition tensor_eq (t : tensor2) (v : Z) : btensor2 :=
  map (map (fun x => (x =? v)%Z)) t.

Definition tensor_ne (t : tensor2) (v : Z) : btensor2 :=
  map (map (fun x => negb (x =? v)%Z)) t.

(** [t[mask] = v] for a boolean mask of the shape of [t]. *)
Definition index_put (t : tensor2) (mask : btensor2) (v : Z) : tensor2 :=
  map (fun '(row, mrow) =>
         map (fun '(x, b) => if b : bool then v else x) (combine row mrow))
      (combine t mask).

(** [t[:, :-1]] and [t[:, 1:]] *)
Definition drop_last_column (t : tensor2) : tensor2 := map (@removelast Z) t.
Definition drop_first_column (t : tensor2) : tensor2 := map (@tl Z) t.

(** The value the loss of the model ignores in [labels]. *)
Definition ignore_index : Z := (-100)%Z.

(** ** The frameworks, as far as the script calls them *)

(** [outputs[0]] of a model called with [labels] is the loss. *)
Record ModelOutput (F : Type) : Type := { loss : F }.

Record Seq2SeqLM (F : Type) : Type := {
  (* input_ids, attention_mask, decoder_input_ids, decoder_attention_mask, labels *)
  model_call : tensor2 -> tensor2 -> tensor2 -> btensor2 -> tensor2
               -> result (ModelOutput F);
  (* input_ids, attention_mask, use_cache, max_length *)
  generate : tensor2 -> tensor2 -> bool -> Z -> result tensor2
}.

(** [scorer.score(ref, pred)[name].fmeasure] for the three rouge types. *)
Record Score (F : Type) : Type := { rouge1_f : F; rouge2_f : F; rougeL_f : F }.

Record ParamGroup (F : Type) : Type := { pg_lr : F }.
Record Optimizer (F : Type) : Type := { param_groups : list (ParamGroup F) }.

Record Trainer (F : Type) : Type := {
  use_ddp : bool;
  world_size : Z;
  optimizers : list (Optimizer F)
}.

Module Args.
Record t (F : Type) : Type := {
  save_dir : string;
  save_prefix : string;
  batch_size : Z;
  grad_accum : Z;
  gpus : Z;
  warmup : Z;
  lr : F;
  val_every : F;
  val_percent_check : F;
  num_workers : Z;
  seed : Z;
  epochs : Z;
  disable_checkpointing : bool;
  max_output_len : Z;
  max_input_len : Z;
  test : bool;
  model_path : string;
  tokenizer : string;
  no_progress_bar : bool;
  fp32 : bool;
  debug : bool;
  resume_ckpt : option string
}.
End Args.

Record TestTubeLogger : Type := {
  logger_save_dir : string;
  logger_name : string;
  logger_version : Z
}.

Record ModelCheckpoint : Type := {
  filepath : string;
  save_top_k : Z;
  verbose : bool;
  monitor : string;
  mode : string;
  period : Z;
  prefix : string
}.

(** The keyword arguments of [pl.Trainer(...)]; [checkpoint_callback=False]
    is [None]. *)
Record TrainerConfig (F : Type) : Type := {
  cfg_gpus : Z;
  distributed_backend : string;
  track_grad_norm : Z;
  max_epochs : Z;
  replace_sampler_ddp : bool;
  accumulate_grad_batches : Z;
  val_check_interval : F;
  num_sanity_val_steps : Z;
  check_val_every_n_epoch : Z;
  cfg_val_percent_check : F;
  test_percent_check : F;
  logger : TestTubeLogger;
  checkpoint_callback : option ModelCheckpoint;
  show_progress_bar : bool;
  use_amp : bool;
  amp_level : string;
  resume_from_checkpoint : option string
}.

(** The fields of the LightningModule the script defines. *)
Record Summarizer (F : Type) : Type := {
  args : Args.t F;
  tokenizer : Tokenizer;
  model : Seq2SeqLM F;
  hf_datasets : list (string * list Entry)
}.

(** What the world outside the script answers. *)
Record Frameworks (F : Type) : Type := {
  rouge_score : string -> string -> result (Score F);      (* ref, pred *)
  cuda_memory_allocated : Z;
  (* what the other workers contribute to the all_reduce of a metric *)
  all_reduce_peers : string -> result (list F);
  cuda_is_available : bool;
  from_pretrained_tokenizer : string -> result Tokenizer;
  from_pretrained_model : string -> result (Seq2SeqLM F);
  load_dataset : string -> string -> result (list (string * list Entry));
  os_path_join : string -> string -> string -> string;
  trainer_fit : TrainerConfig F -> Summarizer F -> result unit;
  trainer_test : TrainerConfig F -> Summarizer F -> result unit
}.

(** ** Calls into the frameworks, logged *)

Inductive call (F : Type) : Type :=
| CallModel (input_ids attention_mask decoder_input_ids : tensor2)
            (decoder_attention_mask : btensor2) (labels : tensor2)
| CallGenerate (input_ids attention_mask : tensor2) (use_cache : bool)
               (max_length : Z)
| CallBatchDecode (ids : tensor2) (skip_special_tokens : bool)
| CallScore (ref pred : string)
| CallAllReduce (name : string) (metric : F)
| CallSeed (generator : string) (seed : Z)
| CallFromPretrainedTokenizer (name : string)
| CallFromPretrainedModel (path : string)
| CallLoadDataset (name config : string)
| CallFit (cfg : TrainerConfig F) (module : Summarizer F)
| CallTest (cfg : TrainerConfig F) (module : Summarizer F)
| CallPrint.

Arguments CallModel {F}.
Arguments CallGenerate {F}.
Arguments CallBatchDecode {F}.
Arguments CallScore {F}.
Arguments CallAllReduce {F}.
Arguments CallSeed {F}.
Arguments CallFromPretrainedTokenizer {F}.
Arguments CallFromPretrainedModel {F}.
Arguments CallLoadDataset {F}.
Arguments CallFit {F}.
Arguments CallTest {F}.
Arguments CallPrint {F}.

(** A computation of the script: it extends the log of calls and returns a
    value or raises.  There is no handler: the script has no [try]. *)
Definition M (F A : Type) : Type := list (call F) -> result A * list (call F).

Definition ret {F A : Type} (a : A) : M F A := fun log => (Ok a, log).

Definition raise {F A : Type} (e : exn) : M F A := fun log => (Raise e, log).

Definition bind {F A B : Type} (m : M F A) (k : A -> M F B) : M F B :=
  fun log =>
    match m log with
    | (Ok a, log') => k a log'
    | (Raise e, log') => (Raise e, log')
    end.

(** A pure fallible computation, no call. *)
Definition lift {F A : Type} (r : result A) : M F A := fun log => (r, log).

(** One call [c] into a framework, which answers [answer]. *)
Definition invoke {F A : Type} (c : call F) (answer : result A) : M F A :=
  fun log => (answer, log ++ [c]).

Declare Scope script_scope.
Delimit Scope script_scope with script.
Notation "x <- m ;; k" := (bind m (fun x => k))
  (at level 61, m at next level, right associativity) : script_scope.
Notation "m ;;; k" := (bind m (fun _ => k))
  (at level 61, right associativity) : script_scope.

(** [xs[0]] *)
Definition index0 {A : Type} (xs : list A) : result A :=
  match xs with
  | [] => Raise IndexError
  | x :: _ => Ok x
  end.

(** [[f(x) for x in xs]] for a fallible [f]: the first failure ends it. *)
Fixpoint comprehension {A B : Type} (f : A -> result B) (xs : list A)
  : result (list B) :=
  match xs with
  | [] => Ok []
  | x :: xs' =>
      (y <- f x ;; ys <- comprehension f xs' ;; Ok (y :: ys))%result
  end.

(** [d[key]] of a dict built by [dict(zip(keys, values))] with distinct keys. *)
Fixpoint dict_get {A : Type} (d : list (string * A)) (key : string) : result A :=
  match d with
  | [] => Raise KeyError
  | (k, v) :: d' => if (k =? key)%string then Ok v else dict_get d' key
  end.

(** ** Summarizer *)

Record TensorboardLogs (F : Type) : Type := {
  train_loss : F;
  log_lr : F;
  input_size : Z;
  output_size : Z;
  mem : F
}.

Record TrainingStepOutput (F : Type) : Type := {
  ts_loss : F;
  ts_log : TensorboardLogs F
}.

Record ValidationOutput (F : Type) : Type := {
  vloss : F;
  rouge1 : F;
  rouge2 : F;
  rougeL : F
}.

(** [x[name]] for the dict a validation step returns. *)
Definition get_metric {F : Type} (x : ValidationOutput F) (name : string)
  : result F :=
  if (name =? "vloss")%string then Ok (vloss x)
  else if (name =? "rouge1")%string then Ok (rouge1 x)
  else if (name =? "rouge2")%string then Ok (rouge2 x)
  else if (name =? "rougeL")%string then Ok (rougeL x)
  else Raise KeyError.

Record EpochEndOutput (F : Type) : Type := {
  avg_val_loss : F;
  log : list (string * F);
  progress_bar : list (string * F)
}.

Definition metric_names : list string := ["vloss"; "rouge1"; "rouge2"; "rougeL"]%string.

Section Steps.

Context {F : Type} `{Scalar F}.

(** The answers of the frameworks, and the trainer Lightning attaches to the
    module as [self.trainer]. *)
Variable world : Frameworks F.
Variable trainer : Trainer F.

Local Open Scope script_scope.

Definition attention_mask_of (self : Summarizer F) (input_ids : tensor2) : tensor2 :=
  let attention_mask := ones_like input_ids in
  index_put attention_mask
            (tensor_eq input_ids (pad_token_id (tokenizer self))) 0%Z.

Definition decoder_input_ids_of (output_ids : tensor2) : tensor2 :=
  drop_last_column output_ids.

Definition labels_of (self : Summarizer F) (output_ids : tensor2) : tensor2 :=
  let labels := drop_first_column output_ids in
  index_put labels (tensor_eq labels (pad_token_id (tokenizer self))) ignore_index.

Definition forward (self : Summarizer F) (input_ids output_ids : tensor2)
  : M F (ModelOutput F) :=
  let attention_mask := attention_mask_of self input_ids in
  let decoder_input_ids := decoder_input_ids_of output_ids in
  let decoder_attention_mask :=
    tensor_ne decoder_input_ids (pad_token_id (tokenizer self)) in
  let labels := labels_of self output_ids in
  invoke (CallModel input_ids attention_mask decoder_input_ids
                    decoder_attention_mask labels)
         (model_call (model self) input_ids attention_mask decoder_input_ids
                     decoder_attention_mask labels).

Definition training_step (self : Summarizer F) (batch : tensor2 * tensor2)
           (batch_nb : Z) : M F (TrainingStepOutput F) :=
  output <- forward self (fst batch) (snd batch) ;;
  let loss := loss output in
  optimizer <- lift (index0 (optimizers trainer)) ;;
  group <- lift (index0 (param_groups optimizer)) ;;
  let lr := fadd f0 (pg_lr group) in
  let tensorboard_logs :=
    {| train_loss := loss;
       log_lr := lr;
       input_size := numel (fst batch);
       output_size := numel (snd batch);
       mem := fdiv (of_int (cuda_memory_allocated world)) (of_int (1024 ^ 3)) |} in
  ret {| ts_loss := loss; ts_log := tensorboard_logs |}.

(** The loop over [zip(gold_str, generated_str)] with its three accumulators. *)
Fixpoint score_loop (pairs : list (string * string)) (acc : F * F * F)
  : M F (F * F * F) :=
  match pairs with
  | [] => ret acc
  | (ref, pred) :: pairs' =>
      score <- invoke (CallScore ref pred) (rouge_score world ref pred) ;;
      let '(rouge1, rouge2, rougel) := acc in
      score_loop pairs' (fadd rouge1 (rouge1_f score),
                         fadd rouge2 (rouge2_f score),
                         fadd rougel (rougeL_f score))
  end.

(** The rouge fields are [vloss.new_zeros(1) + x]: a tensor of the dtype of
    the loss.  [fadd f0 x] is that sum in the one arithmetic [F] of an
    instance; the conversion of the Python float [x] to the dtype of the
    loss, which mixed precision decides, is not modelled. *)
Definition validation_step (self : Summarizer F) (batch : tensor2 * tensor2)
           (batch_nb : Z) : M F (ValidationOutput F) :=
  outputs <- forward self (fst batch) (snd batch) ;;
  let vloss := loss outputs in
  let '(input_ids, output_ids) := batch in
  let attention_mask := attention_mask_of self input_ids in
  generated_ids <-
    invoke (CallGenerate input_ids attention_mask true
                         (Args.max_output_len (args self)))
           (generate (model self) input_ids attention_mask true
                     (Args.max_output_len (args self))) ;;
  generated_str <-
    invoke (CallBatchDecode generated_ids true)
           (batch_decode (tokenizer self) generated_ids true) ;;
  gold_str <-
    invoke (CallBatchDecode output_ids true)
           (batch_decode (tokenizer self) output_ids true) ;;
  sums <- score_loop (combine gold_str generated_str) (f0, f0, f0) ;;
  let '(rouge1, rouge2, rougel) := sums in
  rouge1 <- lift (py_div rouge1 (length generated_str)) ;;
  rouge2 <- lift (py_div rouge2 (length generated_str)) ;;
  rougel <- lift (py_div rougel (length generated_str)) ;;
  ret {| vloss := vloss;
         rouge1 := fadd f0 rouge1;
         rouge2 := fadd f0 rouge2;
         rougeL := fadd f0 rougel |}.

(** [torch.distributed.all_reduce(metric, op=SUM)]: the metric becomes its
    sum with what the other workers hold for it. *)
Definition all_reduce (name : string) (metric : F) : M F F :=
  peers <- invoke (CallAllReduce name metric) (all_reduce_peers world name) ;;
  ret (fold_left fadd peers metric).

Definition reduce_metric (outputs : list (ValidationOutput F)) (name : string)
  : M F F :=
  values <- lift (comprehension (fun x => get_metric x name) outputs) ;;
  metric <- lift (stack_mean values) ;;
  if use_ddp trainer
  then metric <- all_reduce name metric ;;
       ret (fdiv metric (of_int (world_size trainer)))
  else ret metric.

(** [for name in names: ...; metrics.append(metric)] *)
Fixpoint reduce_metrics (outputs : list (ValidationOutput F))
         (names : list string) (metrics : list F) : M F (list F) :=
  match names with
  | [] => ret metrics
  | name :: names' =>
      metric <- reduce_metric outputs name ;;
      reduce_metrics outputs names' (metrics ++ [metric])
  end.

Definition validation_epoch_end (outputs : list (ValidationOutput F))
  : M F (EpochEndOutput F) :=
  let names := metric_names in
  metrics <- reduce_metrics outputs names [] ;;
  let logs := combine names metrics in
  avg <- lift (dict_get logs "vloss") ;;
  ret {| avg_val_loss := avg; log := logs; progress_bar := logs |}.

Definition test_step (self : Summarizer F) (batch : tensor2 * tensor2)
           (batch_nb : Z) : M F (ValidationOutput F) :=
  validation_step self batch batch_nb.

Definition test_epoch_end (outputs : list (ValidationOutput F)) : M F unit :=
  result <- validation_epoch_end outputs ;;
  invoke CallPrint (Ok tt).

End Steps.

(** ** main *)

Section Main.

Context {F : Type} `{Scalar F}.
Variable world : Frameworks F.

Local Open Scope script_scope.

(** [Summarizer.__init__] *)
Definition Summarizer_init (args : Args.t F) : M F (Summarizer F) :=
  tokenizer <-
    invoke (CallFromPretrainedTokenizer (Args.tokenizer args))
           (from_pretrained_tokenizer world (Args.tokenizer args)) ;;
  model <-
    invoke (CallFromPretrainedModel (Args.model_path args))
           (from_pretrained_model world (Args.model_path args)) ;;
  ret {| args := args; tokenizer := tokenizer; model := model; hf_datasets := [] |}.

(** [model.hf_datasets = datasets] *)
Definition set_hf_datasets (self : Summarizer F)
           (datasets : list (string * list Entry)) : Summarizer F :=
  {| args := self.(args); tokenizer := self.(tokenizer); model := self.(model);
     hf_datasets := datasets |}.

Definition seed_everything (args : Args.t F) : M F unit :=
  invoke (CallSeed "random" (Args.seed args)) (Ok tt) ;;;
  invoke (CallSeed "numpy" (Args.seed args)) (Ok tt) ;;;
  invoke (CallSeed "torch" (Args.seed args)) (Ok tt) ;;;
  if cuda_is_available world
  then invoke (CallSeed "torch.cuda" (Args.seed args)) (Ok tt)
  else ret tt.

Definition make_checkpoint_callback (args : Args.t F) : ModelCheckpoint :=
  {| filepath := os_path_join world (Args.save_dir args) (Args.save_prefix args)
                              "checkpoints";
     save_top_k := 5;
     verbose := true;
     monitor := "avg_val_loss";
     mode := "min";
     period := -1;
     prefix := "" |}.

Definition make_trainer_config (args : Args.t F) (logger0 : TestTubeLogger)
           (checkpoint_callback0 : ModelCheckpoint) : TrainerConfig F :=
  {| cfg_gpus := Args.gpus args;
     distributed_backend := "ddp";
     track_grad_norm := -1;
     max_epochs := if negb (Args.debug args) then Args.epochs args else 100;
     replace_sampler_ddp := false;
     accumulate_grad_batches := Args.grad_accum args;
     val_check_interval := Args.val_every args;
     num_sanity_val_steps := 2;
     check_val_every_n_epoch := if negb (Args.debug args) then 1 else 5;
     cfg_val_percent_check := Args.val_percent_check args;
     test_percent_check := Args.val_percent_check args;
     logger := logger0;
     checkpoint_callback :=
       if negb (Args.disable_checkpointing args)
       then Some checkpoint_callback0 else None;
     show_progress_bar := negb (Args.no_progress_bar args);
     use_amp := negb (Args.fp32 args);
     amp_level := "O2";
     resume_from_checkpoint := Args.resume_ckpt args |}.

Definition main (args : Args.t F) : M F unit :=
  seed_everything args ;;;
  self <- Summarizer_init args ;;
  datasets <-
    invoke (CallLoadDataset "scientific_papers" "arxiv")
           (load_dataset world "scientific_papers" "arxiv") ;;
  let self := set_hf_datasets self datasets in
  let logger0 :=
    {| logger_save_dir := Args.save_dir args;
       logger_name := Args.save_prefix args;
       logger_version := 0 |} in
  let checkpoint_callback0 := make_checkpoint_callback args in
  invoke CallPrint (Ok tt) ;;;
  let trainer := make_trainer_config args logger0 checkpoint_callback0 in
  (if negb (Args.test args)
   then invoke (CallFit trainer self) (trainer_fit world trainer self)
   else ret tt) ;;;
  invoke (CallTest trainer self) (trainer_test world trainer self).

End Main.

(** ** Vocabulary of the properties *)

(** [t[i][j]], when there is such an element. *)
Definition at2 {A : Type} (t : list (list A)) (i j : nat) : option A :=
  match nth_error t i with
  | Some row => nth_error row j
  | None => None
  end.

(** [labels[labels == pad] = v], elementwise. *)
Definition replace_token (pad v : Z) (t : tensor2) : tensor2 :=
  map (map (fun x => if (x =? pad)%Z then v else x)) t.

(** The positions the collator added on the right of example [i] of [batch]
    are the columns from the length of the example up to the longest one.
    Column [j] of the decoder input is column [j] of the targets, column [j]
    of the labels is column [j + 1] of the targets. *)
Definition input_padding_masked {F : Type} (self : Summarizer F)
           (batch : list (tensor1 * tensor1)) (input_ids : tensor2) : Prop :=
  forall (i j : nat) (a b : tensor1),
    nth_error batch i = Some (a, b) ->
    length a <= j < max_len (map fst batch) ->
    at2 (attention_mask_of self input_ids) i j = Some 0%Z.

Definition decoder_padding_masked {F : Type} (self : Summarizer F)
           (batch : list (tensor1 * tensor1)) (output_ids : tensor2) : Prop :=
  forall (i j : nat) (a b : tensor1),
    nth_error batch i = Some (a, b) ->
    length b <= j -> S j < max_len (map snd batch) ->
    at2 (tensor_ne (decoder_input_ids_of output_ids)
                   (pad_token_id (tokenizer self))) i j = Some false.

Definition label_padding_ignored {F : Type} (self : Summarizer F)
           (batch : list (tensor1 * tensor1)) (output_ids : tensor2) : Prop :=
  forall (i j : nat) (a b : tensor1),
    nth_error batch i = Some (a, b) ->
    length b <= S j < max_len (map snd batch) ->
    at2 (labels_of self output_ids) i j = Some ignore_index.

(** Each exclusion, over every batch the collator builds. *)
Definition attention_excludes_padding {F : Type} (self : Summarizer F) : Prop :=
  forall (batch : list (tensor1 * tensor1)) (input_ids output_ids : tensor2),
    collate_fn batch = Ok (input_ids, output_ids) ->
    input_padding_masked self batch input_ids.

Definition decoder_attention_excludes_padding {F : Type} (self : Summarizer F)
  : Prop :=
  forall (batch : list (tensor1 * tensor1)) (input_ids output_ids : tensor2),
    collate_fn batch = Ok (input_ids, output_ids) ->
    decoder_padding_masked self batch output_ids.

Definition loss_excludes_padding {F : Type} (self : Summarizer F) : Prop :=
  forall (batch : list (tensor1 * tensor1)) (input_ids output_ids : tensor2),
    collate_fn batch = Ok (input_ids, output_ids) ->
    label_padding_ignored self batch output_ids.

(** ** A concrete configuration, to run the definitions on *)

Module Example.

(** A tokenizer that encodes a text as its character codes, cut at
    [max_length] when [truncation] is set, and decodes every row to the same
    text. *)
Definition tokenizer_with_pad (pad : Z) : Tokenizer :=
  {| encode := fun text truncation max_length =>
       let ids := map (fun c => Z.of_nat (Ascii.nat_of_ascii c))
                      (list_ascii_of_string text) in
       if truncation then firstn (Z.to_nat max_length) ids else ids;
     pad_token_id := pad;
     batch_decode := fun ids _ => Ok (map (fun _ => "a summary"%string) ids) |}.

(** A model with a constant loss that generates one short row per input. *)
Definition lm : Seq2SeqLM float :=
  {| model_call := fun _ _ _ _ _ => Ok {| loss := 0x1p-1%float |};
     generate := fun input_ids _ _ _ => Ok (map (fun _ => [0; 2]%Z) input_ids) |}.

(** The defaults of [add_model_specific_args]. *)
Definition default_args : Args.t float :=
  {| Args.save_dir := "summarization";
     Args.save_prefix := "test";
     Args.batch_size := 16;
     Args.grad_accum := 1;
     Args.gpus := -1;
     Args.warmup := 1000;
     Args.lr := 0x1.f75104d551d69p-16%float;
     Args.val_every := 1%float;
     Args.val_percent_check := 1%float;
     Args.num_workers := 0;
     Args.seed := 1234;
     Args.epochs := 5;
     Args.disable_checkpointing := false;
     Args.max_output_len := 256;
     Args.max_input_len := 512;
     Args.test := false;
     Args.model_path := "facebook/bart-base";
     Args.tokenizer := "facebook/bart-base";
     Args.no_progress_bar := false;
     Args.fp32 := false;
     Args.debug := false;
     Args.resume_ckpt := None |}.

Definition summarizer (pad : Z) : Summarizer float :=
  {| args := default_args;
     tokenizer := tokenizer_with_pad pad;
     model := lm;
     hf_datasets := [] |}.

(** Every example scores [fmeasure] on the three rouge types. *)
Definition world_scoring (fmeasure : float) : Frameworks float :=
  {| rouge_score := fun _ _ =>
       Ok {| rouge1_f := fmeasure; rouge2_f := fmeasure; rougeL_f := fmeasure |};
     cuda_memory_allocated := 0;
     all_reduce_peers := fun _ => Ok [];
     cuda_is_available := false;
     from_pretrained_tokenizer := fun _ => Ok (tokenizer_with_pad 1);
     from_pretrained_model := fun _ => Ok lm;
     load_dataset := fun _ _ => Ok [];
     os_path_join := fun a b c => (a ++ "/" ++ b ++ "/" ++ c)%string;
     trainer_fit := fun _ _ => Ok tt;
     trainer_test := fun _ _ => Ok tt |}.

Definition trainer : Trainer float :=
  {| use_ddp := false;
     world_size := 1;
     optimizers := [ {| param_groups := [ {| pg_lr := 0x1.f75104d551d69p-16%float |} ] |} ] |}.

(** Two workers: the other one holds 0.5 for every metric. *)
Definition world_ddp : Frameworks float :=
  {| rouge_score := rouge_score (world_scoring 0x1p-1%float);
     cuda_memory_allocated := 0;
     all_reduce_peers := fun _ => Ok [0x1p-1%float];
     cuda_is_available := true;
     from_pretrained_tokenizer := fun _ => Ok (tokenizer_with_pad 1);
     from_pretrained_model := fun _ => Ok lm;
     load_dataset := fun _ _ => Ok [];
     os_path_join := fun a b c => (a ++ "/" ++ b ++ "/" ++ c)%string;
     trainer_fit := fun _ _ => Ok tt;
     trainer_test := fun _ _ => Ok tt |}.

Definition trainer_ddp : Trainer float :=
  {| use_ddp := true;
     world_size := 2;
     optimizers := optimizers trainer |}.

(** The outputs of two validation steps. *)
Definition two_outputs : list (ValidationOutput float) :=
  [ {| vloss := 1%float; rouge1 := 0x1p-2%float; rouge2 := 0x1p-3%float;
       rougeL := 0x1p-2%float |};
    {| vloss := 2%float; rouge1 := 0x1.8p-1%float; rouge2 := 0x1.8p-2%float;
       rougeL := 0x1p-1%float |} ].

(** A model whose forward pass runs out of memory, and a trainer whose fit
    fails. *)
Definition out_of_memory : exn := FrameworkError "CUDA out of memory".

Definition lm_failing : Seq2SeqLM float :=
  {| model_call := fun _ _ _ _ _ => Raise out_of_memory;
     generate := generate lm |}.

Definition summarizer_failing : Summarizer float :=
  {| args := default_args;
     tokenizer := tokenizer_with_pad 1;
     model := lm_failing;
     hf_datasets := [] |}.

Definition world_fit_fails : Frameworks float :=
  {| rouge_score := rouge_score (world_scoring 0x1p-1%float);
     cuda_memory_allocated := 0;
     all_reduce_peers := fun _ => Ok [];
     cuda_is_available := false;
     from_pretrained_tokenizer := fun _ => Ok (tokenizer_with_pad 1);
     from_pretrained_model := fun _ => Ok lm;
     load_dataset := fun _ _ => Ok [];
     os_path_join := fun a b c => (a ++ "/" ++ b ++ "/" ++ c)%string;
     trainer_fit := fun _ _ => Raise out_of_memory;
     trainer_test := fun _ _ => Ok tt |}.

End Example.

(** * Properties *)

(** ** Lists and tensors *)

Lemma skipn_repeat_sub (A : Type) (v : A) (n m : nat) :
  skipn n (repeat v m) = repeat v (m - n).
Proof.
  revert n; induction m as [|m IH]; intros [|n]; simpl; auto.
Qed.

Lemma assign_prefix_full (v : Z) (cols : nat) (t : tensor1) :
  assign_prefix (repeat v cols) t = t ++ repeat v (cols - length t).
Proof.
  unfold assign_prefix; now rewrite skipn_repeat_sub.
Qed.

Lemma fill_rows_new_full (v : Z) (cols : nat) (sequences : list tensor1) :
  fill_rows (new_full (length sequences) cols v) sequences
  = map (fun t => t ++ repeat v (cols - length t)) sequences.
Proof.
  unfold new_full.
  induction sequences as [|t ts IH]; simpl; [reflexivity|].
  now rewrite assign_prefix_full, IH.
Qed.

Lemma length_le_max_len (sequences : list tensor1) (t : tensor1) :
  In t sequences -> length t <= max_len sequences.
Proof.
  intros Hin. unfold max_len.
  pose proof (list_max_le (map (@length Z) sequences)
                          (list_max (map (@length Z) sequences))) as [Hle _].
  specialize (Hle (le_n _)).
  rewrite Forall_forall in Hle. apply Hle. now apply in_map.
Qed.

Lemma padded_row_length (v : Z) (cols : nat) (t : tensor1) :
  length t <= cols -> length (t ++ repeat v (cols - length t)) = cols.
Proof.
  intros Hle. rewrite length_app, repeat_length. lia.
Qed.

Lemma split_as_maps (A B : Type) (l : list (A * B)) :
  split l = (map fst l, map snd l).
Proof.
  induction l as [|[a b] l IH]; simpl; [reflexivity|]. now rewrite IH.
Qed.

Lemma pad_sequence_rows (sequences : list tensor1) (v : Z) :
  sequences <> [] ->
  pad_sequence sequences v
  = Ok (map (fun t => t ++ repeat v (max_len sequences - length t)) sequences).
Proof.
  destruct sequences as [|t ts]; [congruence|]. intros _.
  unfold pad_sequence. now rewrite fill_rows_new_full.
Qed.

Lemma pad_sequence_rectangular (sequences : list tensor1) (v : Z) :
  rectangular (max_len sequences)
    (map (fun t => t ++ repeat v (max_len sequences - length t)) sequences).
Proof.
  unfold rectangular. rewrite Forall_map, Forall_forall. intros t Hin.
  apply padded_row_length. now apply length_le_max_len.
Qed.

(** The collator, on a batch that is not empty, row by row. *)
Lemma collate_fn_rows (batch : list (tensor1 * tensor1)) :
  batch <> [] ->
  collate_fn batch
  = Ok (map (fun t => t ++ repeat collate_pad_token_id
                                  (max_len (map fst batch) - length t))
            (map fst batch),
        map (fun t => t ++ repeat collate_pad_token_id
                                  (max_len (map snd batch) - length t))
            (map snd batch)).
Proof.
  intros Hne. unfold collate_fn.
  destruct batch as [|p batch']; [congruence|].
  rewrite split_as_maps.
  rewrite !pad_sequence_rows by (simpl; congruence).
  reflexivity.
Qed.

(** C2.  On every non-empty batch [collate_fn] returns two rectangular
    tensors with one row per example, in the order of the batch: row [i] of
    the inputs (of the targets) is the [i]-th input (target) sequence
    unchanged, followed on the right by the pad value up to the longest input
    (target) of the batch. *)
Theorem collate_fn_right_pads (batch : list (tensor1 * tensor1)) :
  batch <> [] ->
  exists input_ids output_ids : tensor2,
    collate_fn batch = Ok (input_ids, output_ids) /\
    rectangular (max_len (map fst batch)) input_ids /\
    rectangular (max_len (map snd batch)) output_ids /\
    length input_ids = length batch /\
    length output_ids = length batch /\
    forall (i : nat) (a b : tensor1),
      nth_error batch i = Some (a, b) ->
      length a <= max_len (map fst batch) /\
      length b <= max_len (map snd batch) /\
      nth_error input_ids i
      = Some (a ++ repeat collate_pad_token_id
                          (max_len (map fst batch) - length a)) /\
      nth_error output_ids i
      = Some (b ++ repeat collate_pad_token_id
                          (max_len (map snd batch) - length b)).
Proof.
  intros Hne. rewrite (collate_fn_rows Hne).
  eexists; eexists; split; [reflexivity|].
  split; [apply pad_sequence_rectangular|].
  split; [apply pad_sequence_rectangular|].
  rewrite !length_map. split; [reflexivity|]. split; [reflexivity|].
  intros i a b Hi.
  pose proof (nth_error_In _ _ Hi) as Hin.
  split; [apply length_le_max_len; now apply (in_map fst) in Hin|].
  split; [apply length_le_max_len; now apply (in_map snd) in Hin|].
  rewrite !nth_error_map, Hi. simpl. split; reflexivity.
Qed.

Lemma collate_fn_right_pads_witness :
  exists input_ids output_ids : tensor2,
    collate_fn [([5; 6; 7], [8]); ([9], [10; 11])]%Z = Ok (input_ids, output_ids) /\
    input_ids = [[5; 6; 7]; [9; 1; 1]]%Z /\
    output_ids = [[8; 1]; [10; 11]]%Z.
Proof.
  destruct (@collate_fn_right_pads [([5; 6; 7], [8]); ([9], [10; 11])]%Z)
    as (input_ids & output_ids & Heq & _); [discriminate|].
  exists input_ids, output_ids. split; [exact Heq|].
  vm_compute in Heq. injection Heq as <- <-. split; reflexivity.
Defined.

(** ** forward *)

Lemma combine_map_same (A B C : Type) (f : A -> B) (g : A -> C) (l : list A) :
  combine (map f l) (map g l) = map (fun x => (f x, g x)) l.
Proof.
  induction l as [|x l IH]; simpl; [reflexivity|]. now rewrite IH.
Qed.

Lemma index_put_maps (f : Z -> Z) (g : Z -> bool) (v : Z) (t : tensor2) :
  index_put (map (map f) t) (map (map g) t) v
  = map (map (fun x => if g x then v else f x)) t.
Proof.
  unfold index_put. rewrite combine_map_same, map_map.
  apply map_ext. intros row. now rewrite combine_map_same, map_map.
Qed.

Lemma labels_of_replace (F : Type) (self : Summarizer F) (output_ids : tensor2) :
  labels_of self output_ids
  = replace_token (pad_token_id (tokenizer self)) ignore_index
                  (drop_first_column output_ids).
Proof.
  unfold labels_of, tensor_eq, replace_token.
  set (labels := drop_first_column output_ids).
  rewrite <- (map_id labels) at 1.
  replace (map (fun x : list Z => x) labels)
    with (map (map (fun x : Z => x)) labels)
    by (apply map_ext; intros; apply map_id).
  now rewrite index_put_maps.
Qed.

Lemma attention_mask_of_eq (F : Type) (self : Summarizer F) (input_ids : tensor2) :
  attention_mask_of self input_ids
  = map (map (fun x => if (x =? pad_token_id (tokenizer self))%Z then 0%Z else 1%Z))
        input_ids.
Proof.
  unfold attention_mask_of, ones_like, tensor_eq. now rewrite index_put_maps.
Qed.

Lemma at2_map (A B : Type) (f : A -> B) (t : list (list A)) (i j : nat) :
  at2 (map (map f) t) i j = option_map f (at2 t i j).
Proof.
  unfold at2. rewrite nth_error_map.
  destruct (nth_error t i) as [row|]; simpl; [|reflexivity].
  apply nth_error_map.
Qed.

Lemma nth_error_tl (A : Type) (l : list A) (j : nat) :
  nth_error (tl l) j = nth_error l (S j).
Proof.
  destruct l; simpl; [now destruct j|reflexivity].
Qed.

Lemma at2_drop_first_column (t : tensor2) (i j : nat) :
  at2 (drop_first_column t) i j = at2 t i (S j).
Proof.
  unfold at2, drop_first_column. rewrite nth_error_map.
  destruct (nth_error t i) as [row|]; simpl; [|reflexivity].
  apply nth_error_tl.
Qed.

Lemma nth_error_removelast (A : Type) (l : list A) (j : nat) :
  S j < length l -> nth_error (removelast l) j = nth_error l j.
Proof.
  revert j; induction l as [|x l IH]; intros j Hj; simpl in *; [lia|].
  destruct l as [|y l]; [simpl in Hj; lia|].
  destruct j as [|j]; [reflexivity|].
  simpl. apply IH. simpl in *. lia.
Qed.

Lemma at2_drop_last_column (t : tensor2) (cols i j : nat) :
  rectangular cols t -> S j < cols -> i < length t ->
  at2 (drop_last_column t) i j = at2 t i j.
Proof.
  intros Hrect Hj Hi. unfold at2, drop_last_column. rewrite nth_error_map.
  destruct (nth_error t i) as [row|] eqn:Hrow; simpl; [|reflexivity].
  apply nth_error_removelast.
  unfold rectangular in Hrect. rewrite Forall_forall in Hrect.
  rewrite (Hrect row); [exact Hj|]. eapply nth_error_In; eauto.
Qed.

Lemma nth_error_padded (v : Z) (cols j : nat) (t : tensor1) :
  length t <= j < cols ->
  nth_error (t ++ repeat v (cols - length t)) j = Some v.
Proof.
  intros Hj. rewrite nth_error_app2 by lia.
  apply nth_error_repeat. lia.
Qed.

Lemma length_removelast (A : Type) (l : list A) :
  length (removelast l) = pred (length l).
Proof.
  induction l as [|x l IH]; simpl; [reflexivity|].
  destruct l; simpl in *; [reflexivity|]. now rewrite IH.
Qed.

Lemma length_tl (A : Type) (l : list A) : length (tl l) = pred (length l).
Proof. now destruct l. Qed.

Lemma drop_last_column_rectangular (cols : nat) (t : tensor2) :
  rectangular cols t -> rectangular (pred cols) (drop_last_column t).
Proof.
  unfold rectangular, drop_last_column. rewrite Forall_map.
  apply Forall_impl. intros row <-. apply length_removelast.
Qed.

Lemma drop_first_column_rectangular (cols : nat) (t : tensor2) :
  rectangular cols t -> rectangular (pred cols) (drop_first_column t).
Proof.
  unfold rectangular, drop_first_column. rewrite Forall_map.
  apply Forall_impl. intros row <-. apply length_tl.
Qed.

Lemma replace_token_rectangular (pad v : Z) (cols : nat) (t : tensor2) :
  rectangular cols t -> rectangular cols (replace_token pad v t).
Proof.
  unfold rectangular, replace_token. rewrite Forall_map.
  apply Forall_impl. intros row <-. apply length_map.
Qed.

(** What [forward] does: exactly one call, of the model, with these
    arguments; its answer is the answer of the model. *)
Lemma forward_run (F : Type) (self : Summarizer F)
      (input_ids output_ids : tensor2) (log0 : list (call F)) :
  forward self input_ids output_ids log0
  = (model_call (model self) input_ids
                (attention_mask_of self input_ids)
                (decoder_input_ids_of output_ids)
                (tensor_ne (decoder_input_ids_of output_ids)
                           (pad_token_id (tokenizer self)))
                (labels_of self output_ids),
     log0 ++ [CallModel input_ids
                        (attention_mask_of self input_ids)
                        (decoder_input_ids_of output_ids)
                        (tensor_ne (decoder_input_ids_of output_ids)
                                   (pad_token_id (tokenizer self)))
                        (labels_of self output_ids)]).
Proof. reflexivity. Qed.

(** ** The collator's pad value against the tokenizer's *)

Lemma collate_fn_inv (batch : list (tensor1 * tensor1))
      (input_ids output_ids : tensor2) :
  collate_fn batch = Ok (input_ids, output_ids) ->
  input_ids = map (fun t => t ++ repeat collate_pad_token_id
                                        (max_len (map fst batch) - length t))
                  (map fst batch) /\
  output_ids = map (fun t => t ++ repeat collate_pad_token_id
                                         (max_len (map snd batch) - length t))
                   (map snd batch).
Proof.
  intros Hc. destruct batch as [|p batch']; [discriminate|].
  rewrite collate_fn_rows in Hc by discriminate.
  injection Hc as <- <-. split; reflexivity.
Qed.

Lemma at2_padded (A : Type) (pick : A -> tensor1) (v : Z) (cols i j : nat)
      (xs : list A) (x : A) :
  nth_error xs i = Some x ->
  length (pick x) <= j < cols ->
  at2 (map (fun t => t ++ repeat v (cols - length t)) (map pick xs)) i j = Some v.
Proof.
  intros Hi Hj. unfold at2. rewrite !nth_error_map, Hi. simpl.
  now apply nth_error_padded.
Qed.

Lemma attention_of_collator_padding (F : Type) (self : Summarizer F)
      (batch : list (tensor1 * tensor1)) (input_ids output_ids : tensor2)
      (i j : nat) (a b : tensor1) :
  collate_fn batch = Ok (input_ids, output_ids) ->
  nth_error batch i = Some (a, b) ->
  length a <= j < max_len (map fst batch) ->
  at2 (attention_mask_of self input_ids) i j
  = Some (if (collate_pad_token_id =? pad_token_id (tokenizer self))%Z
          then 0%Z else 1%Z).
Proof.
  intros Hc Hi Hj. apply collate_fn_inv in Hc as [-> _].
  rewrite attention_mask_of_eq, at2_map.
  now rewrite (at2_padded fst _ _ _ Hi Hj).
Qed.

Lemma decoder_mask_of_collator_padding (F : Type) (self : Summarizer F)
      (batch : list (tensor1 * tensor1)) (input_ids output_ids : tensor2)
      (i j : nat) (a b : tensor1) :
  collate_fn batch = Ok (input_ids, output_ids) ->
  nth_error batch i = Some (a, b) ->
  length b <= j -> S j < max_len (map snd batch) ->
  at2 (tensor_ne (decoder_input_ids_of output_ids)
                 (pad_token_id (tokenizer self))) i j
  = Some (negb (collate_pad_token_id =? pad_token_id (tokenizer self))%Z).
Proof.
  intros Hc Hi Hb Hj. apply collate_fn_inv in Hc as [_ ->].
  unfold tensor_ne, decoder_input_ids_of. rewrite at2_map.
  rewrite (@at2_drop_last_column _ (max_len (map snd batch))); try assumption.
  - rewrite (at2_padded snd _ _ _ Hi); [reflexivity|simpl; lia].
  - apply pad_sequence_rectangular.
  - rewrite !length_map. apply nth_error_Some. congruence.
Qed.

Lemma label_of_collator_padding (F : Type) (self : Summarizer F)
      (batch : list (tensor1 * tensor1)) (input_ids output_ids : tensor2)
      (i j : nat) (a b : tensor1) :
  collate_fn batch = Ok (input_ids, output_ids) ->
  nth_error batch i = Some (a, b) ->
  length b <= S j < max_len (map snd batch) ->
  at2 (labels_of self output_ids) i j
  = Some (if (collate_pad_token_id =? pad_token_id (tokenizer self))%Z
          then ignore_index else collate_pad_token_id).
Proof.
  intros Hc Hi Hj. apply collate_fn_inv in Hc as [_ ->].
  rewrite labels_of_replace. unfold replace_token.
  rewrite at2_map, at2_drop_first_column.
  now rewrite (at2_padded snd _ _ _ Hi Hj).
Qed.

(** A batch in which the first example is padded by one position among the
    inputs and by two among the targets. *)
Definition uneven_batch : list (tensor1 * tensor1) :=
  [([5], [0]); ([5; 7], [0; 6; 2])]%Z.

Lemma uneven_batch_collated :
  collate_fn uneven_batch = Ok ([[5; 1]; [5; 7]], [[0; 1; 1]; [0; 6; 2]])%Z.
Proof. reflexivity. Qed.

Lemma uneven_batch_first : nth_error uneven_batch 0 = Some ([5], [0])%Z.
Proof. reflexivity. Qed.

Lemma pad_ids_agree (pad : Z) (x y : Z) :
  x <> y ->
  Some (if (collate_pad_token_id =? pad)%Z then x else y) = Some x ->
  pad = 1%Z.
Proof.
  intros Hxy. destruct (Z.eqb_spec collate_pad_token_id pad) as [<-|_].
  - reflexivity.
  - intros Heq. injection Heq as Heq. congruence.
Qed.

(** C7.  The collator pads with the constant 1 whatever the tokenizer, and
    [forward] compares with the pad token id of the configured tokenizer:
    each of the three exclusions of collator padding (from the encoder
    attention mask, from the decoder attention mask, from the labels of the
    loss) holds over all batches exactly when that id is 1. *)
Theorem collator_padding_excluded_iff (F : Type) (self : Summarizer F) :
  collate_pad_token_id = 1%Z /\
  (attention_excludes_padding self
   <-> pad_token_id (tokenizer self) = 1%Z) /\
  (decoder_attention_excludes_padding self
   <-> pad_token_id (tokenizer self) = 1%Z) /\
  (loss_excludes_padding self
   <-> pad_token_id (tokenizer self) = 1%Z).
Proof.
  split; [reflexivity|].
  pose proof uneven_batch_collated as Hc.
  pose proof uneven_batch_first as Hrow.
  assert (Hin : 1 <= 1 < max_len (map fst uneven_batch)) by (vm_compute; lia).
  assert (Hout : 1 <= 1 < max_len (map snd uneven_batch)) by (vm_compute; lia).
  repeat split.
  - intros Hall.
    pose proof (Hall _ _ _ Hc 0 1 _ _ Hrow Hin) as Hmask.
    rewrite (@attention_of_collator_padding _ self _ _ _ _ _ _ _ Hc Hrow Hin) in Hmask.
    apply (@pad_ids_agree _ 0%Z 1%Z); [discriminate|exact Hmask].
  - intros Hpad batch ids ods Hb i j a b Hi Hj.
    rewrite (@attention_of_collator_padding _ self _ _ _ _ _ _ _ Hb Hi Hj), Hpad. reflexivity.
  - intros Hall.
    assert (H1 : length ([0]%Z) <= 1) by (simpl; lia).
    assert (H2 : 2 < max_len (map snd uneven_batch)) by (vm_compute; lia).
    pose proof (Hall _ _ _ Hc 0 1 _ _ Hrow H1 H2) as Hmask.
    rewrite (@decoder_mask_of_collator_padding _ self _ _ _ _ _ _ _ Hc Hrow H1 H2) in Hmask.
    destruct (Z.eqb_spec collate_pad_token_id (pad_token_id (tokenizer self)))
      as [Heq|Hne]; [now rewrite <- Heq|discriminate].
  - intros Hpad batch ids ods Hb i j a b Hi Hj1 Hj2.
    rewrite (@decoder_mask_of_collator_padding _ self _ _ _ _ _ _ _ Hb Hi Hj1 Hj2), Hpad.
    reflexivity.
  - intros Hall.
    assert (H1 : length ([0]%Z) <= 1 < max_len (map snd uneven_batch))
      by (vm_compute; lia).
    pose proof (Hall _ _ _ Hc 0 0 _ _ Hrow H1) as Hlab.
    rewrite (@label_of_collator_padding _ self _ _ _ _ _ _ _ Hc Hrow H1) in Hlab.
    apply (@pad_ids_agree _ ignore_index collate_pad_token_id);
      [discriminate|exact Hlab].
  - intros Hpad batch ids ods Hb i j a b Hi Hj.
    rewrite (@label_of_collator_padding _ self _ _ _ _ _ _ _ Hb Hi Hj), Hpad. reflexivity.
Qed.

(** ** Labels and the loss *)

Lemma at2_replace_token (pad v : Z) (t : tensor2) (i j : nat) :
  at2 (replace_token pad v t) i j
  = option_map (fun x => if (x =? pad)%Z then v else x) (at2 t i j).
Proof. apply at2_map. Qed.

(** C1.  Padding positions must not reach the loss, and they do with a
    tokenizer other than the default one.  A T5-style tokenizer has pad token
    id 0, the collator pads with its constant 1 all the same, and [forward]
    masks the pad token of the tokenizer: the position the collator added to
    the first target of [uneven_batch] reaches the model as the label 1, not
    as -100 (and the padded input position is attended to). *)
Lemma forward_keeps_collator_padding_as_label :
  pad_token_id (tokenizer (Example.summarizer 0)) = 0%Z /\
  collate_fn uneven_batch = Ok ([[5; 1]; [5; 7]], [[0; 1; 1]; [0; 6; 2]])%Z /\
  snd (forward (Example.summarizer 0)
               [[5; 1]; [5; 7]]%Z [[0; 1; 1]; [0; 6; 2]]%Z [])
  = [CallModel [[5; 1]; [5; 7]]%Z
               [[1; 1]; [1; 1]]%Z
               [[0; 1]; [0; 6]]%Z
               [[false; true]; [false; true]]
               [[1; 1]; [6; 2]]%Z] /\
  at2 (labels_of (Example.summarizer 0) [[0; 1; 1]; [0; 6; 2]]%Z) 0 1
  = Some collate_pad_token_id /\
  collate_pad_token_id <> ignore_index.
Proof.
  repeat split; try reflexivity. discriminate.
Qed.

(** What [forward] does keep out of the loss.  It calls the model once, with
    labels that are the targets without their first column in which every
    token equal to the pad token id of the configured tokenizer is replaced by
    -100 and every other token is kept.  When that id is the pad value of the
    collator, every label position the collator added is -100. *)
Theorem forward_masks_tokenizer_pad (F : Type) (self : Summarizer F)
        (input_ids output_ids : tensor2) (log0 : list (call F)) :
  let pad := pad_token_id (tokenizer self) in
  let labels := replace_token pad ignore_index (drop_first_column output_ids) in
  (exists (attention_mask decoder_input_ids : tensor2)
          (decoder_attention_mask : btensor2),
      forward self input_ids output_ids log0
      = (model_call (model self) input_ids attention_mask decoder_input_ids
                    decoder_attention_mask labels,
         log0 ++ [CallModel input_ids attention_mask decoder_input_ids
                            decoder_attention_mask labels])) /\
  (forall i j : nat,
      at2 labels i j
      = option_map (fun x => if (x =? pad)%Z then ignore_index else x)
                   (at2 output_ids i (S j))) /\
  (pad = collate_pad_token_id ->
   forall (batch : list (tensor1 * tensor1)) (inputs : tensor2),
     collate_fn batch = Ok (inputs, output_ids) ->
     label_padding_ignored self batch output_ids).
Proof.
  intros pad labels. split; [|split].
  - do 3 eexists. rewrite forward_run, labels_of_replace. reflexivity.
  - intros i j. unfold labels.
    now rewrite at2_replace_token, at2_drop_first_column.
  - intros Hpad batch inputs Hb i j a b Hi Hj.
    rewrite (@label_of_collator_padding _ self _ _ _ _ _ _ _ Hb Hi Hj).
    fold pad. rewrite Hpad, Z.eqb_refl. reflexivity.
Qed.

(** ** The training step *)

Lemma bind_ok (F A B : Type) (m : M F A) (k : A -> M F B)
      (log0 log1 : list (call F)) (a : A) :
  m log0 = (Ok a, log1) -> bind m k log0 = k a log1.
Proof. intros Hm. unfold bind. now rewrite Hm. Qed.

Lemma bind_raise (F A B : Type) (m : M F A) (k : A -> M F B)
      (log0 log1 : list (call F)) (e : exn) :
  m log0 = (Raise e, log1) -> bind m k log0 = (Raise e, log1).
Proof. intros Hm. unfold bind. now rewrite Hm. Qed.

(** C3.  The training step calls the model once, with the targets without
    their last column as decoder input and the targets without their first
    column, pad tokens replaced by -100, as labels; it returns the loss of
    the model with the logging scalars. *)
Theorem training_step_teacher_forcing (F : Type) (ops : Scalar F)
        (world : Frameworks F) (trainer : Trainer F) (self : Summarizer F)
        (batch : tensor2 * tensor2) (batch_nb : Z) (log0 : list (call F))
        (out : ModelOutput F) (optimizer : Optimizer F)
        (other_optimizers : list (Optimizer F)) (group : ParamGroup F)
        (other_groups : list (ParamGroup F)) :
  let input_ids := fst batch in
  let output_ids := snd batch in
  let pad := pad_token_id (tokenizer self) in
  let attention_mask := attention_mask_of self input_ids in
  let decoder_input_ids := map (@removelast Z) output_ids in
  let decoder_attention_mask := tensor_ne decoder_input_ids pad in
  let labels := replace_token pad ignore_index (map (@tl Z) output_ids) in
  model_call (model self) input_ids attention_mask decoder_input_ids
             decoder_attention_mask labels = Ok out ->
  optimizers trainer = optimizer :: other_optimizers ->
  param_groups optimizer = group :: other_groups ->
  training_step world trainer self batch batch_nb log0
  = (Ok {| ts_loss := loss out;
           ts_log := {| train_loss := loss out;
                        log_lr := fadd f0 (pg_lr group);
                        input_size := numel input_ids;
                        output_size := numel output_ids;
                        mem := fdiv (of_int (cuda_memory_allocated world))
                                    (of_int (1024 ^ 3)) |} |},
     log0 ++ [CallModel input_ids attention_mask decoder_input_ids
                        decoder_attention_mask labels]) /\
  (forall cols : nat,
      rectangular (S cols) output_ids ->
      rectangular cols decoder_input_ids /\
      rectangular cols labels /\
      forall i j : nat,
        i < length output_ids -> j < cols ->
        at2 decoder_input_ids i j = at2 output_ids i j /\
        at2 labels i j
        = option_map (fun x => if (x =? pad)%Z then ignore_index else x)
                     (at2 output_ids i (S j))).
Proof.
  intros input_ids output_ids pad attention_mask decoder_input_ids
         decoder_attention_mask labels Hmodel Hopt Hgroup.
  split.
  - unfold training_step.
    rewrite (@bind_ok _ _ _ _ _ log0
               (log0 ++ [CallModel input_ids attention_mask decoder_input_ids
                                   decoder_attention_mask labels]) out).
    + unfold bind, lift, ret. rewrite Hopt. simpl. rewrite Hgroup. reflexivity.
    + rewrite forward_run, labels_of_replace. fold input_ids output_ids pad.
      unfold decoder_input_ids_of, drop_last_column, drop_first_column.
      fold decoder_input_ids. fold decoder_attention_mask. fold labels.
      fold attention_mask. now rewrite Hmodel.
  - intros cols Hrect. split; [|split].
    + apply (drop_last_column_rectangular Hrect).
    + apply replace_token_rectangular.
      apply (drop_first_column_rectangular Hrect).
    + intros i j Hi Hj. split.
      * apply (@at2_drop_last_column output_ids (S cols));
          [exact Hrect|lia|exact Hi].
      * unfold labels. rewrite at2_replace_token.
        now rewrite <- at2_drop_first_column.
Qed.

Lemma training_step_teacher_forcing_witness :
  training_step (Example.world_scoring 0x1.999999999999ap-2%float)
                Example.trainer (Example.summarizer 1)
                ([[5; 1]; [5; 7]], [[0; 1; 1]; [0; 6; 2]])%Z 0%Z []
  = (Ok {| ts_loss := 0x1p-1%float;
           ts_log := {| train_loss := 0x1p-1%float;
                        log_lr := 0x1.f75104d551d69p-16%float;
                        input_size := 4;
                        output_size := 6;
                        mem := 0%float |} |},
     [CallModel [[5; 1]; [5; 7]]%Z
                [[1; 0]; [1; 1]]%Z
                [[0; 1]; [0; 6]]%Z
                [[true; false]; [true; true]]
                [[-100; -100]; [6; 2]]%Z]).
Proof.
  exact (proj1 (@training_step_teacher_forcing
                  float binary64
                  (Example.world_scoring 0x1.999999999999ap-2%float)
                  Example.trainer (Example.summarizer 1)
                  ([[5; 1]; [5; 7]], [[0; 1; 1]; [0; 6; 2]])%Z 0%Z []
                  {| loss := 0x1p-1%float |} _ _ _ _
                  eq_refl eq_refl eq_refl)).
Defined.

(** ** Truncation *)

(** What the script relies on when it passes [truncation=True] and
    [max_length]: the encoding has at most [max_length] tokens. *)
Definition truncates (tok : Tokenizer) : Prop :=
  forall (text : string) (max_length : Z),
    (0 <= max_length)%Z ->
    (Z.of_nat (length (encode tok text true max_length)) <= max_length)%Z.

Definition within (bound : Z) (t : tensor2) : Prop :=
  Forall (fun row => (Z.of_nat (length row) <= bound)%Z) t.

Lemma comprehension_inv (A B : Type) (f : A -> result B) (xs : list A)
      (ys : list B) :
  comprehension f xs = Ok ys ->
  forall y, In y ys -> exists x, In x xs /\ f x = Ok y.
Proof.
  revert ys; induction xs as [|x xs IH]; simpl; intros ys Hys y Hy.
  - injection Hys as <-. destruct Hy.
  - destruct (f x) as [y0|e] eqn:Hfx; simpl in Hys; [|discriminate].
    destruct (comprehension f xs) as [ys0|e] eqn:Hrest; simpl in Hys;
      [|discriminate].
    injection Hys as <-. destruct Hy as [<-|Hy].
    + exists x. auto.
    + destruct (IH ys0 eq_refl y Hy) as (x' & Hin & Hfx'). exists x'. auto.
Qed.

Lemma getitem_bound (self : SummarizationDataset) (idx : nat)
      (input_ids output_ids : tensor1) :
  truncates (ds_tokenizer self) ->
  (0 <= max_input_len self)%Z -> (0 <= max_output_len self)%Z ->
  getitem self idx = Ok (input_ids, output_ids) ->
  (Z.of_nat (length input_ids) <= max_input_len self)%Z /\
  (Z.of_nat (length output_ids) <= max_output_len self)%Z.
Proof.
  intros Htr Hin Hout Hget. unfold getitem in Hget.
  destruct (nth_error (hf_dataset self) idx) as [entry|]; [|discriminate].
  injection Hget as <- <-. split; apply Htr; assumption.
Qed.

Lemma max_len_bound (bound : Z) (sequences : list tensor1) :
  (0 <= bound)%Z ->
  Forall (fun t => (Z.of_nat (length t) <= bound)%Z) sequences ->
  (Z.of_nat (max_len sequences) <= bound)%Z.
Proof.
  intros Hb Hall. unfold max_len.
  induction Hall as [|t ts Ht _ IH]; simpl; [lia|].
  lia.
Qed.

Lemma padded_within (bound : Z) (v : Z) (sequences : list tensor1) :
  (0 <= bound)%Z ->
  Forall (fun t => (Z.of_nat (length t) <= bound)%Z) sequences ->
  within bound
    (map (fun t => t ++ repeat v (max_len sequences - length t)) sequences).
Proof.
  intros Hb Hall. pose proof (max_len_bound Hb Hall) as Hmax.
  unfold within. rewrite Forall_map, Forall_forall. intros t Hin.
  rewrite padded_row_length by now apply length_le_max_len.
  exact Hmax.
Qed.

Lemma within_map_rows (bound : Z) (f : tensor1 -> tensor1) (t : tensor2) :
  (forall row, length (f row) <= length row) ->
  within bound t -> within bound (map f t).
Proof.
  intros Hf. unfold within. rewrite Forall_map. apply Forall_impl.
  intros row Hrow. specialize (Hf row). lia.
Qed.

(** C4.  With a tokenizer that honours [truncation=True, max_length=m],
    [__getitem__] returns, at every index of the dataset, an input of at
    most [max_input_len] tokens and a target of at most [max_output_len]
    tokens; and what the script computes from such examples stays within the
    bounds: the collated tensors, the attention mask, the decoder input and
    the labels. *)
Theorem truncation_bound_preserved (F : Type) (ds : SummarizationDataset)
        (self : Summarizer F) :
  truncates (ds_tokenizer ds) ->
  (0 <= max_input_len ds)%Z -> (0 <= max_output_len ds)%Z ->
  (forall idx : nat,
      idx < dataset_len ds ->
      exists input_ids output_ids : tensor1,
        getitem ds idx = Ok (input_ids, output_ids) /\
        (Z.of_nat (length input_ids) <= max_input_len ds)%Z /\
        (Z.of_nat (length output_ids) <= max_output_len ds)%Z) /\
  (forall (indices : list nat) (batch : list (tensor1 * tensor1))
          (input_ids output_ids : tensor2),
      comprehension (getitem ds) indices = Ok batch ->
      collate_fn batch = Ok (input_ids, output_ids) ->
      within (max_input_len ds) input_ids /\
      within (max_output_len ds) output_ids /\
      within (max_input_len ds) (attention_mask_of self input_ids) /\
      within (max_output_len ds) (decoder_input_ids_of output_ids) /\
      within (max_output_len ds) (labels_of self output_ids)).
Proof.
  intros Htr Hin Hout. split.
  - intros idx Hidx. unfold dataset_len in Hidx.
    destruct (getitem ds idx) as [[input_ids output_ids]|e] eqn:Hget.
    + exists input_ids, output_ids. split; [reflexivity|].
      exact (getitem_bound _ _ Htr Hin Hout Hget).
    + unfold getitem in Hget.
      destruct (nth_error (hf_dataset ds) idx) eqn:Hnth; [discriminate|].
      apply nth_error_None in Hnth. lia.
  - intros indices batch input_ids output_ids Hbatch Hcollate.
    apply collate_fn_inv in Hcollate as [-> ->].
    assert (Hitems : forall a b, In (a, b) batch ->
                (Z.of_nat (length a) <= max_input_len ds)%Z /\
                (Z.of_nat (length b) <= max_output_len ds)%Z).
    { intros a b Hab.
      destruct (comprehension_inv _ _ Hbatch _ Hab) as (idx & _ & Hget).
      exact (getitem_bound _ _ Htr Hin Hout Hget). }
    assert (Hins : within (max_input_len ds)
                     (map (fun t => t ++ repeat collate_pad_token_id
                                      (max_len (map fst batch) - length t))
                          (map fst batch))).
    { apply padded_within; [assumption|].
      rewrite Forall_map, Forall_forall. intros [a b] Hab.
      apply (Hitems a b Hab). }
    assert (Houts : within (max_output_len ds)
                      (map (fun t => t ++ repeat collate_pad_token_id
                                       (max_len (map snd batch) - length t))
                           (map snd batch))).
    { apply padded_within; [assumption|].
      rewrite Forall_map, Forall_forall. intros [a b] Hab.
      apply (Hitems a b Hab). }
    split; [exact Hins|]. split; [exact Houts|]. split; [|split].
    + rewrite attention_mask_of_eq. apply within_map_rows; [|exact Hins].
      intros row. now rewrite length_map.
    + apply within_map_rows; [|exact Houts].
      intros row. rewrite length_removelast. lia.
    + rewrite labels_of_replace. unfold replace_token, drop_first_column.
      apply within_map_rows; [intros row; now rewrite length_map|].
      apply within_map_rows; [|exact Houts].
      intros row. rewrite length_tl. lia.
Qed.

Lemma example_tokenizer_truncates (pad : Z) :
  truncates (Example.tokenizer_with_pad pad).
Proof.
  intros text max_length Hm. simpl.
  pose proof (firstn_le_length (Z.to_nat max_length)
                (map (fun c => Z.of_nat (Ascii.nat_of_ascii c))
                     (list_ascii_of_string text))) as Hle.
  lia.
Qed.

Definition example_dataset : SummarizationDataset :=
  {| hf_dataset := [ {| article := "a long article"; abstract := "short" |} ];
     ds_tokenizer := Example.tokenizer_with_pad 1;
     max_input_len := 4;
     max_output_len := 3 |}.

Lemma truncation_bound_preserved_witness :
  exists input_ids output_ids : tensor1,
    getitem example_dataset 0 = Ok (input_ids, output_ids) /\
    (Z.of_nat (length input_ids) <= 4)%Z /\
    (Z.of_nat (length output_ids) <= 3)%Z.
Proof.
  assert (Hin : (0 <= max_input_len example_dataset)%Z)
    by (unfold example_dataset; simpl; lia).
  assert (Hout : (0 <= max_output_len example_dataset)%Z)
    by (unfold example_dataset; simpl; lia).
  assert (Hidx : 0 < dataset_len example_dataset)
    by (unfold example_dataset, dataset_len; simpl; lia).
  exact (proj1 (@truncation_bound_preserved
                  float example_dataset (Example.summarizer 1)
                  (example_tokenizer_truncates 1) Hin Hout)
               0 Hidx).
Defined.

(** ** The metric reduction at the end of a validation epoch *)

(** The sum of [xs] over their number, in the arithmetic in use. *)
Definition mean_of {F : Type} `{Scalar F} (xs : list F) : F :=
  fdiv (accumulate xs) (of_int (Z.of_nat (length xs))).

(** The local value summed with those of the other workers and divided by
    the number of workers. *)
Definition across_workers {F : Type} `{Scalar F} (local : F) (peers : list F) : F :=
  fdiv (fold_left fadd peers local) (of_int (Z.of_nat (S (length peers)))).

Lemma comprehension_ok (A B : Type) (f : A -> result B) (g : A -> B)
      (xs : list A) :
  (forall x, f x = Ok (g x)) -> comprehension f xs = Ok (map g xs).
Proof.
  intros Hf. induction xs as [|x xs IH]; simpl; [reflexivity|].
  now rewrite Hf, IH.
Qed.

Lemma stack_mean_ok (F : Type) (ops : Scalar F) (xs : list F) :
  xs <> [] -> stack_mean xs = Ok (mean_of xs).
Proof. destruct xs; [congruence|reflexivity]. Qed.

Section Reduction.

Context {F : Type} {ops : Scalar F}.
Variable world : Frameworks F.
Variable trainer : Trainer F.
Variable outputs : list (ValidationOutput F).
Hypothesis outputs_not_empty : outputs <> [].

Lemma reduce_metric_run (name : string) (f : ValidationOutput F -> F)
      (log0 : list (call F)) :
  (forall x, get_metric x name = Ok (f x)) ->
  reduce_metric world trainer outputs name log0
  = if use_ddp trainer
    then match all_reduce_peers world name with
         | Ok peers =>
             (Ok (fdiv (fold_left fadd peers (mean_of (map f outputs)))
                       (of_int (world_size trainer))),
              log0 ++ [CallAllReduce name (mean_of (map f outputs))])
         | Raise e =>
             (Raise e, log0 ++ [CallAllReduce name (mean_of (map f outputs))])
         end
    else (Ok (mean_of (map f outputs)), log0).
Proof.
  intros Hget. unfold reduce_metric, bind, lift.
  rewrite (comprehension_ok _ f outputs Hget).
  rewrite stack_mean_ok
    by (destruct outputs; [congruence|discriminate]).
  destruct (use_ddp trainer); [|reflexivity].
  unfold all_reduce, bind, invoke, ret.
  destruct (all_reduce_peers world name); reflexivity.
Qed.

End Reduction.

Lemma get_metric_vloss (F : Type) (x : ValidationOutput F) :
  get_metric x "vloss" = Ok (vloss x).
Proof. reflexivity. Qed.

Lemma get_metric_rouge1 (F : Type) (x : ValidationOutput F) :
  get_metric x "rouge1" = Ok (rouge1 x).
Proof. reflexivity. Qed.

Lemma get_metric_rouge2 (F : Type) (x : ValidationOutput F) :
  get_metric x "rouge2" = Ok (rouge2 x).
Proof. reflexivity. Qed.

Lemma get_metric_rougeL (F : Type) (x : ValidationOutput F) :
  get_metric x "rougeL" = Ok (rougeL x).
Proof. reflexivity. Qed.

(** What [validation_epoch_end] reports for the metric that the validation
    steps return in the field [f], under the name [name]. *)
Definition reported {F : Type} `{Scalar F} (trainer : Trainer F)
           (peers : string -> list F) (outputs : list (ValidationOutput F))
           (name : string) (f : ValidationOutput F -> F) : F :=
  if use_ddp trainer
  then across_workers (mean_of (map f outputs)) (peers name)
  else mean_of (map f outputs).

(** C5.  On a non-empty list of per-batch outputs, [validation_epoch_end]
    reports for each of vloss, rouge1, rouge2 and rougeL the mean of the
    per-batch values of the epoch; under distributed training that mean is
    summed with the means of the other workers and divided by the number of
    workers, one all_reduce per metric. *)
Theorem validation_epoch_end_averages (F : Type) (ops : Scalar F)
        (world : Frameworks F) (trainer : Trainer F)
        (outputs : list (ValidationOutput F)) (peers : string -> list F)
        (log0 : list (call F)) :
  outputs <> [] ->
  (use_ddp trainer = true ->
   forall name : string,
     In name metric_names ->
     all_reduce_peers world name = Ok (peers name) /\
     world_size trainer = Z.of_nat (S (length (peers name)))) ->
  let value := reported trainer peers outputs in
  let logs := [("vloss", value "vloss" (@vloss F));
               ("rouge1", value "rouge1" (@rouge1 F));
               ("rouge2", value "rouge2" (@rouge2 F));
               ("rougeL", value "rougeL" (@rougeL F))]%string in
  validation_epoch_end world trainer outputs log0
  = (Ok {| avg_val_loss := value "vloss"%string (@vloss F);
           log := logs;
           progress_bar := logs |},
     log0 ++
     (if use_ddp trainer
      then [CallAllReduce "vloss" (mean_of (map (@vloss F) outputs));
            CallAllReduce "rouge1" (mean_of (map (@rouge1 F) outputs));
            CallAllReduce "rouge2" (mean_of (map (@rouge2 F) outputs));
            CallAllReduce "rougeL" (mean_of (map (@rougeL F) outputs))]
      else [])).
Proof.
  intros Hne Hddp value logs. subst logs value.
  unfold validation_epoch_end, metric_names, reduce_metrics.
  unfold bind at 1. unfold bind at 1.
  rewrite (reduce_metric_run world trainer Hne "vloss" (@vloss F) log0
             (@get_metric_vloss F)).
  unfold reported.
  destruct (use_ddp trainer) eqn:Huse.
  - destruct (Hddp eq_refl "vloss"%string) as [Hp0 Hw0]; [simpl; auto|].
    destruct (Hddp eq_refl "rouge1"%string) as [Hp1 Hw1]; [simpl; auto|].
    destruct (Hddp eq_refl "rouge2"%string) as [Hp2 Hw2]; [simpl; auto|].
    destruct (Hddp eq_refl "rougeL"%string) as [Hp3 Hw3]; [simpl; auto 6|].
    rewrite Hp0. unfold bind.
    rewrite (reduce_metric_run world trainer Hne "rouge1" (@rouge1 F) _
               (@get_metric_rouge1 F)), Huse, Hp1.
    rewrite (reduce_metric_run world trainer Hne "rouge2" (@rouge2 F) _
               (@get_metric_rouge2 F)), Huse, Hp2.
    rewrite (reduce_metric_run world trainer Hne "rougeL" (@rougeL F) _
               (@get_metric_rougeL F)), Huse, Hp3.
    unfold ret, lift, across_workers.
    rewrite <- Hw0, <- Hw1, <- Hw2, <- Hw3.
    rewrite <- !app_assoc. reflexivity.
  - unfold bind.
    rewrite (reduce_metric_run world trainer Hne "rouge1" (@rouge1 F) _
               (@get_metric_rouge1 F)), Huse.
    rewrite (reduce_metric_run world trainer Hne "rouge2" (@rouge2 F) _
               (@get_metric_rouge2 F)), Huse.
    rewrite (reduce_metric_run world trainer Hne "rougeL" (@rougeL F) _
               (@get_metric_rougeL F)), Huse.
    unfold ret, lift. simpl. rewrite app_nil_r. reflexivity.
Qed.

(** ** The validation step *)

(** The calls of the scoring loop, in order. *)
Definition score_calls {F : Type} (pairs : list (string * string)) : list (call F) :=
  map (fun p => CallScore (fst p) (snd p)) pairs.

(** The scorer answers [scores], pair by pair. *)
Definition scored {F : Type} (world : Frameworks F)
           (pairs : list (string * string)) (scores : list (Score F)) : Prop :=
  Forall2 (fun p score => rouge_score world (fst p) (snd p) = Ok score)
          pairs scores.

Lemma score_loop_run (F : Type) (ops : Scalar F) (world : Frameworks F)
      (pairs : list (string * string)) (scores : list (Score F)) :
  scored world pairs scores ->
  forall (r1 r2 rl : F) (log0 : list (call F)),
    score_loop world pairs (r1, r2, rl) log0
    = (Ok (fold_left fadd (map (@rouge1_f F) scores) r1,
           fold_left fadd (map (@rouge2_f F) scores) r2,
           fold_left fadd (map (@rougeL_f F) scores) rl),
       log0 ++ score_calls pairs).
Proof.
  induction 1 as [|[ref pred] score pairs scores Hscore _ IH];
    intros r1 r2 rl log0.
  - simpl. unfold ret. now rewrite app_nil_r.
  - simpl in *. unfold bind, invoke. rewrite Hscore.
    rewrite IH. unfold score_calls. simpl.
    now rewrite <- app_assoc.
Qed.

Section ValidationStep.

Context {F : Type} {ops : Scalar F}.
Variable world : Frameworks F.
Variable self : Summarizer F.
Variables input_ids output_ids : tensor2.
Variable batch_nb : Z.
Variable log0 : list (call F).

Let pad : Z := pad_token_id (tokenizer self).
Let attention_mask : tensor2 := attention_mask_of self input_ids.
Let decoder_input_ids : tensor2 := decoder_input_ids_of output_ids.
Let labels : tensor2 := labels_of self output_ids.
Let max_length : Z := Args.max_output_len (args self).

(** The calls the step makes before the scoring loop. *)
Definition validation_calls (generated_ids : tensor2) : list (call F) :=
  [CallModel input_ids attention_mask decoder_input_ids
             (tensor_ne decoder_input_ids pad) labels;
   CallGenerate input_ids attention_mask true max_length;
   CallBatchDecode generated_ids true;
   CallBatchDecode output_ids true].

Variable out : ModelOutput F.
Variable generated_ids : tensor2.
Variables generated_str gold_str : list string.
Variable scores : list (Score F).

Hypothesis model_answers :
  model_call (model self) input_ids attention_mask decoder_input_ids
             (tensor_ne decoder_input_ids pad) labels = Ok out.
Hypothesis generate_answers :
  generate (model self) input_ids attention_mask true max_length
  = Ok generated_ids.
Hypothesis decode_generated :
  batch_decode (tokenizer self) generated_ids true = Ok generated_str.
Hypothesis decode_gold :
  batch_decode (tokenizer self) output_ids true = Ok gold_str.
Hypothesis scorer_answers :
  scored world (combine gold_str generated_str) scores.

Lemma validation_step_run :
  validation_step world self (input_ids, output_ids) batch_nb log0
  = (match length generated_str with
     | O => Raise ZeroDivisionError
     | S _ =>
         Ok {| vloss := loss out;
               rouge1 := fadd f0 (fdiv (accumulate (map (@rouge1_f F) scores))
                                       (of_int (Z.of_nat (length generated_str))));
               rouge2 := fadd f0 (fdiv (accumulate (map (@rouge2_f F) scores))
                                       (of_int (Z.of_nat (length generated_str))));
               rougeL := fadd f0 (fdiv (accumulate (map (@rougeL_f F) scores))
                                       (of_int (Z.of_nat (length generated_str)))) |}
     end,
     log0 ++ validation_calls generated_ids
          ++ score_calls (combine gold_str generated_str)).
Proof.
  unfold validation_step. cbn [fst snd].
  rewrite (@bind_ok _ _ _ _ _ log0
             (log0 ++ [CallModel input_ids attention_mask decoder_input_ids
                                 (tensor_ne decoder_input_ids pad) labels]) out)
    by (rewrite forward_run; fold pad attention_mask decoder_input_ids labels;
        now rewrite model_answers).
  fold attention_mask max_length.
  unfold bind at 1. unfold invoke at 1. rewrite generate_answers.
  unfold bind at 1. unfold invoke at 1. rewrite decode_generated.
  unfold bind at 1. unfold invoke at 1. rewrite decode_gold.
  unfold bind at 1. rewrite (@score_loop_run F ops world _ _ scorer_answers).
  unfold validation_calls, accumulate. rewrite <- !app_assoc. cbn [app].
  destruct (length generated_str) as [|n]; reflexivity.
Qed.

End ValidationStep.

(** ** Averaging over the batch *)







(** ** Division by the number of generated summaries *)

(** C8.  The validation step divides the accumulated scores by the number of
    generated summaries, with no guard.  When the model, the tokenizer and
    the scorer answer, with one generated summary per example of the batch:
    on a non-empty batch the step returns, and on an empty batch it raises
    ZeroDivisionError, after the calls to the model and the tokenizer. *)
Theorem validation_step_division (F : Type) (ops : Scalar F)
        (world : Frameworks F) (self : Summarizer F)
        (input_ids output_ids : tensor2) (batch_nb : Z) (log0 : list (call F))
        (out : ModelOutput F) (generated_ids : tensor2)
        (generated_str gold_str : list string) (scores : list (Score F)) :
  model_call (model self) input_ids (attention_mask_of self input_ids)
             (decoder_input_ids_of output_ids)
             (tensor_ne (decoder_input_ids_of output_ids)
                        (pad_token_id (tokenizer self)))
             (labels_of self output_ids) = Ok out ->
  generate (model self) input_ids (attention_mask_of self input_ids) true
           (Args.max_output_len (args self)) = Ok generated_ids ->
  batch_decode (tokenizer self) generated_ids true = Ok generated_str ->
  batch_decode (tokenizer self) output_ids true = Ok gold_str ->
  scored world (combine gold_str generated_str) scores ->
  length generated_ids = length input_ids ->
  length generated_str = length generated_ids ->
  (fst (validation_step world self (input_ids, output_ids) batch_nb log0)
   = Raise ZeroDivisionError <-> length generated_str = 0) /\
  (input_ids <> [] ->
   exists r : ValidationOutput F,
     fst (validation_step world self (input_ids, output_ids) batch_nb log0)
     = Ok r) /\
  (input_ids = [] ->
   validation_step world self (input_ids, output_ids) batch_nb log0
   = (Raise ZeroDivisionError,
      log0 ++ [CallModel input_ids (attention_mask_of self input_ids)
                         (decoder_input_ids_of output_ids)
                         (tensor_ne (decoder_input_ids_of output_ids)
                                    (pad_token_id (tokenizer self)))
                         (labels_of self output_ids);
               CallGenerate input_ids (attention_mask_of self input_ids) true
                            (Args.max_output_len (args self));
               CallBatchDecode generated_ids true;
               CallBatchDecode output_ids true])).
Proof.
  intros Hmodel Hgen Hdec Hgold Hscored Hrows Hstrs.
  rewrite (@validation_step_run F ops world self input_ids output_ids
             batch_nb log0 out generated_ids generated_str gold_str scores
             Hmodel Hgen Hdec Hgold Hscored).
  cbn [fst]. split; [|split].
  - destruct (length generated_str); split; intros Hx;
      first [reflexivity | discriminate].
  - intros Hne.
    destruct generated_str as [|g gs].
    + destruct input_ids; [congruence|]. simpl in *. lia.
    + eexists. reflexivity.
  - intros ->. simpl in Hrows.
    destruct generated_str as [|g gs]; [|simpl in *; lia].
    unfold validation_calls, score_calls.
    replace (combine gold_str []) with (@nil (string * string))
      by (now destruct gold_str).
    cbn [length map]. now rewrite app_nil_r.
Qed.

Lemma validation_step_division_witness :
  (exists r : ValidationOutput float,
      fst (validation_step (Example.world_scoring 0x1p-1%float)
                           (Example.summarizer 1)
                           ([[5; 1]; [5; 7]], [[0; 1; 1]; [0; 6; 2]])%Z 0%Z [])
      = Ok r) /\
  fst (validation_step (Example.world_scoring 0x1p-1%float)
                       (Example.summarizer 1) ([], []) 0%Z [])
  = Raise ZeroDivisionError.
Proof.
  split.
  - apply (proj1 (proj2 (@validation_step_division
            float binary64 (Example.world_scoring 0x1p-1%float)
            (Example.summarizer 1)
            [[5; 1]; [5; 7]]%Z [[0; 1; 1]; [0; 6; 2]]%Z 0%Z []
            {| loss := 0x1p-1%float |}
            [[0; 2]; [0; 2]]%Z
            ["a summary"; "a summary"]%string
            ["a summary"; "a summary"]%string
            (repeat {| rouge1_f := 0x1p-1%float; rouge2_f := 0x1p-1%float;
                       rougeL_f := 0x1p-1%float |} 2)
            eq_refl eq_refl eq_refl eq_refl
            ltac:(repeat constructor) eq_refl eq_refl))).
    discriminate.
  - exact (f_equal fst (proj2 (proj2 (@validation_step_division
            float binary64 (Example.world_scoring 0x1p-1%float)
            (Example.summarizer 1) [] [] 0%Z []
            {| loss := 0x1p-1%float |} [] [] [] []
            eq_refl eq_refl eq_refl eq_refl
            ltac:(constructor) eq_refl eq_refl)) eq_refl)).
Defined.

Lemma validation_epoch_end_averages_witness :
  validation_epoch_end Example.world_ddp Example.trainer_ddp
                       Example.two_outputs []
  = (Ok {| avg_val_loss := 1%float;
           log := [("vloss", 1%float); ("rouge1", 0x1p-1%float);
                   ("rouge2", 0x1.8p-2%float); ("rougeL", 0x1.cp-2%float)]%string;
           progress_bar := [("vloss", 1%float); ("rouge1", 0x1p-1%float);
                            ("rouge2", 0x1.8p-2%float);
                            ("rougeL", 0x1.cp-2%float)]%string |},
     [CallAllReduce "vloss" 0x1.8p+0%float;
      CallAllReduce "rouge1" 0x1p-1%float;
      CallAllReduce "rouge2" 0x1p-2%float;
      CallAllReduce "rougeL" 0x1.8p-2%float]).
Proof.
  assert (Hne : Example.two_outputs <> []) by discriminate.
  assert (Hpeers : use_ddp Example.trainer_ddp = true ->
                   forall name : string,
                     In name metric_names ->
                     all_reduce_peers Example.world_ddp name
                     = Ok ((fun _ => [0x1p-1%float]) name) /\
                     world_size Example.trainer_ddp
                     = Z.of_nat (S (length ((fun _ : string => [0x1p-1%float]) name))))
    by (intros _ name _; split; reflexivity).
  exact (@validation_epoch_end_averages
           float binary64 Example.world_ddp Example.trainer_ddp
           Example.two_outputs (fun _ => [0x1p-1%float]) [] Hne Hpeers).
Defined.

(** ** main and the checkpoint configuration *)

Definition seed_calls {F : Type} (world : Frameworks F) (args0 : Args.t F)
  : list (call F) :=
  [CallSeed "random" (Args.seed args0);
   CallSeed "numpy" (Args.seed args0);
   CallSeed "torch" (Args.seed args0)]
  ++ (if cuda_is_available world
      then [CallSeed "torch.cuda" (Args.seed args0)] else []).

(** The trainer configuration [main] builds from the arguments. *)
Definition main_config {F : Type} (world : Frameworks F) (args0 : Args.t F)
  : TrainerConfig F :=
  make_trainer_config args0
    {| logger_save_dir := Args.save_dir args0;
       logger_name := Args.save_prefix args0;
       logger_version := 0 |}
    (make_checkpoint_callback world args0).

(** What [main] does, by the answers of the frameworks. *)
Definition main_outcome {F : Type} (world : Frameworks F) (args0 : Args.t F)
           (log0 : list (call F)) : result unit * list (call F) :=
  let log1 := log0 ++ seed_calls world args0 in
  let log2 := log1 ++ [CallFromPretrainedTokenizer (Args.tokenizer args0)] in
  match from_pretrained_tokenizer world (Args.tokenizer args0) with
  | Raise e => (Raise e, log2)
  | Ok tok =>
      let log3 := log2 ++ [CallFromPretrainedModel (Args.model_path args0)] in
      match from_pretrained_model world (Args.model_path args0) with
      | Raise e => (Raise e, log3)
      | Ok lm =>
          let log4 := log3 ++ [CallLoadDataset "scientific_papers" "arxiv"] in
          match load_dataset world "scientific_papers" "arxiv" with
          | Raise e => (Raise e, log4)
          | Ok datasets =>
              let self := {| args := args0; tokenizer := tok; model := lm;
                             hf_datasets := datasets |} in
              let cfg := main_config world args0 in
              let log5 := log4 ++ [CallPrint] in
              if Args.test args0
              then (trainer_test world cfg self, log5 ++ [CallTest cfg self])
              else
                match trainer_fit world cfg self with
                | Raise e => (Raise e, log5 ++ [CallFit cfg self])
                | Ok _ =>
                    (trainer_test world cfg self,
                     (log5 ++ [CallFit cfg self]) ++ [CallTest cfg self])
                end
          end
      end
  end.

Lemma seed_everything_run (F : Type) (world : Frameworks F) (args0 : Args.t F)
      (log0 : list (call F)) :
  seed_everything world args0 log0 = (Ok tt, log0 ++ seed_calls world args0).
Proof.
  unfold seed_everything, seed_calls, bind, invoke, ret.
  destruct (cuda_is_available world); cbn [app];
    rewrite <- ?app_assoc; cbn [app]; try reflexivity.
Qed.

Lemma main_run (F : Type) (world : Frameworks F) (args0 : Args.t F)
      (log0 : list (call F)) :
  main world args0 log0 = main_outcome world args0 log0.
Proof.
  unfold main, main_outcome.
  unfold bind at 1. rewrite seed_everything_run.
  unfold bind at 1. unfold Summarizer_init.
  unfold bind at 1. unfold invoke at 1.
  destruct (from_pretrained_tokenizer world (Args.tokenizer args0))
    as [tok|e]; [|reflexivity].
  unfold bind at 1. unfold invoke at 1.
  destruct (from_pretrained_model world (Args.model_path args0))
    as [lm|e]; [|reflexivity].
  unfold ret at 1.
  unfold bind at 1. unfold invoke at 1.
  destruct (load_dataset world "scientific_papers" "arxiv")
    as [datasets|e]; [|reflexivity].
  unfold bind at 1. unfold invoke at 1.
  unfold set_hf_datasets. cbn [args tokenizer model].
  fold (main_config world args0).
  destruct (Args.test args0); cbn [negb].
  - unfold bind, ret, invoke. reflexivity.
  - unfold bind, invoke.
    destruct (trainer_fit world (main_config world args0) _) as [[]|e];
      reflexivity.
Qed.

Lemma epoch_end_reports_vloss (F : Type) (ops : Scalar F)
      (world : Frameworks F) (trainer : Trainer F)
      (outputs : list (ValidationOutput F)) (log0 : list (call F))
      (r : EpochEndOutput F) :
  fst (validation_epoch_end world trainer outputs log0) = Ok r ->
  dict_get (log r) "vloss" = Ok (avg_val_loss r) /\ progress_bar r = log r.
Proof.
  unfold validation_epoch_end, bind, lift, ret.
  destruct (reduce_metrics world trainer outputs metric_names [] log0)
    as [[metrics|e] log1]; [|discriminate].
  destruct (dict_get (combine metric_names metrics) "vloss") as [avg|e] eqn:Hget;
    [|discriminate].
  cbn [fst]. intros Hr. injection Hr as <-. cbn [log avg_val_loss progress_bar].
  split; [exact Hget|reflexivity].
Qed.

(** The calls of [main] up to the trainer: the seeds, the three loads and
    the print. *)
Definition main_prelude {F : Type} (world : Frameworks F) (args0 : Args.t F)
  : list (call F) :=
  seed_calls world args0
  ++ [CallFromPretrainedTokenizer (Args.tokenizer args0);
      CallFromPretrainedModel (Args.model_path args0);
      CallLoadDataset "scientific_papers" "arxiv";
      CallPrint].

Lemma main_loaded_run (F : Type) (world : Frameworks F) (args0 : Args.t F)
      (log0 : list (call F)) (tok : Tokenizer) (lm : Seq2SeqLM F)
      (datasets : list (string * list Entry)) :
  from_pretrained_tokenizer world (Args.tokenizer args0) = Ok tok ->
  from_pretrained_model world (Args.model_path args0) = Ok lm ->
  load_dataset world "scientific_papers" "arxiv" = Ok datasets ->
  snd (main world args0 log0)
  = (log0 ++ main_prelude world args0)
    ++ (if Args.test args0
        then [CallTest (main_config world args0)
                       {| args := args0; tokenizer := tok; model := lm;
                          hf_datasets := datasets |}]
        else CallFit (main_config world args0)
                     {| args := args0; tokenizer := tok; model := lm;
                        hf_datasets := datasets |}
             :: match trainer_fit world (main_config world args0)
                                  {| args := args0; tokenizer := tok;
                                     model := lm; hf_datasets := datasets |} with
                | Ok _ => [CallTest (main_config world args0)
                                    {| args := args0; tokenizer := tok;
                                       model := lm; hf_datasets := datasets |}]
                | Raise _ => []
                end).
Proof.
  intros Htok Hlm Hds. rewrite main_run. unfold main_outcome, main_prelude.
  rewrite Htok, Hlm, Hds.
  destruct (Args.test args0); cbn [snd].
  - now rewrite <- !app_assoc.
  - destruct (trainer_fit world (main_config world args0) _); cbn [snd];
      now rewrite <- !app_assoc.
Qed.

(** C9.  The checkpoint callback [main] builds monitors 'avg_val_loss' with
    mode 'min' and keeps the top 5.  Unless checkpointing is disabled it is
    the callback of the trainer configuration of [main]; once the tokenizer,
    the model and the dataset are loaded, [main] does hand that configuration
    to the trainer: to fit, or under [--test] to test, as its first call of
    the trainer, and every fit and test call it makes carries it.  The
    'avg_val_loss' that [validation_epoch_end] returns is the validation loss
    it reports under 'vloss'. *)
Theorem checkpoints_ranked_by_avg_val_loss (F : Type) (ops : Scalar F)
        (world : Frameworks F) (args0 : Args.t F) :
  let callback := make_checkpoint_callback world args0 in
  monitor callback = "avg_val_loss"%string /\
  mode callback = "min"%string /\
  save_top_k callback = 5%Z /\
  checkpoint_callback (main_config world args0)
  = (if Args.disable_checkpointing args0 then None else Some callback) /\
  (forall (log0 : list (call F)) (c : call F),
      In c (snd (main world args0 log0)) ->
      forall (cfg : TrainerConfig F) (self : Summarizer F),
        c = CallFit cfg self \/ c = CallTest cfg self ->
        In c log0 \/ cfg = main_config world args0) /\
  (forall (trainer : Trainer F) (outputs : list (ValidationOutput F))
          (log0 : list (call F)) (r : EpochEndOutput F),
      fst (validation_epoch_end world trainer outputs log0) = Ok r ->
      dict_get (log r) "vloss" = Ok (avg_val_loss r)) /\
  (forall (log0 : list (call F)) (tok : Tokenizer) (lm : Seq2SeqLM F)
          (datasets : list (string * list Entry)),
      from_pretrained_tokenizer world (Args.tokenizer args0) = Ok tok ->
      from_pretrained_model world (Args.model_path args0) = Ok lm ->
      load_dataset world "scientific_papers" "arxiv" = Ok datasets ->
      let self := {| args := args0; tokenizer := tok; model := lm;
                     hf_datasets := datasets |} in
      let cfg := main_config world args0 in
      exists later : list (call F),
        snd (main world args0 log0)
        = (log0 ++ main_prelude world args0)
          ++ (if Args.test args0 then CallTest cfg self else CallFit cfg self)
          :: later /\
        (Args.test args0 = false ->
         trainer_fit world cfg self = Ok tt ->
         later = [CallTest cfg self])).
Proof.
  intros callback. split; [reflexivity|]. split; [reflexivity|].
  split; [reflexivity|]. split; [|split; [|split]].
  - unfold main_config, make_trainer_config. cbn [checkpoint_callback].
    now destruct (Args.disable_checkpointing args0).
  - intros log0 c Hin cfg self Hc. rewrite main_run in Hin.
    unfold main_outcome in Hin.
    assert (Hseed : forall c', In c' (seed_calls world args0) ->
                               exists g s, c' = CallSeed g s).
    { unfold seed_calls. intros c' Hc'. apply in_app_or in Hc'.
      destruct Hc' as [Hc'|Hc'].
      - simpl in Hc'. destruct Hc' as [<-|[<-|[<-|[]]]]; eauto.
      - destruct (cuda_is_available world); simpl in Hc';
          [destruct Hc' as [<-|[]]; eauto|destruct Hc']. }
    assert (Hnot : forall c', In c' (seed_calls world args0) -> c' <> c).
    { intros c' Hc' ->. destruct (Hseed _ Hc') as (g & s & Heq).
      destruct Hc as [->| ->]; discriminate. }
    clear Hseed. revert Hnot Hin.
    generalize (seed_calls world args0) as seeds. intros seeds Hnot Hin.
    destruct (from_pretrained_tokenizer world (Args.tokenizer args0));
      [destruct (from_pretrained_model world (Args.model_path args0));
       [destruct (load_dataset world "scientific_papers" "arxiv");
        [destruct (Args.test args0);
         [|destruct (trainer_fit world (main_config world args0) _)]|]|]|];
      cbn [snd] in Hin;
      repeat (apply in_app_or in Hin; destruct Hin as [Hin|Hin]);
      try (left; exact Hin);
      try (exfalso; exact (Hnot _ Hin eq_refl));
      simpl in Hin;
      repeat (destruct Hin as [Hin|Hin]; [|try contradiction]);
      try contradiction;
      subst c; destruct Hc as [Hc|Hc]; try discriminate;
      right; now injection Hc.
  - intros trainer outputs log0 r Hr.
    exact (proj1 (@epoch_end_reports_vloss F ops world trainer outputs log0 r Hr)).
  - intros log0 tok lm datasets Htok Hlm Hds self cfg.
    rewrite (@main_loaded_run F world args0 log0 tok lm datasets Htok Hlm Hds).
    fold self cfg.
    destruct (Args.test args0).
    + exists []. split; [reflexivity|]. discriminate.
    + eexists. split; [reflexivity|].
      intros _ Hfit. now rewrite Hfit.
Qed.

Lemma checkpoints_ranked_by_avg_val_loss_witness :
  exists (cfg : TrainerConfig float) (self : Summarizer float),
    In (CallFit cfg self)
       (snd (main (Example.world_scoring 0x1p-1%float) Example.default_args [])) /\
    checkpoint_callback cfg
    = Some {| filepath := "summarization/test/checkpoints";
              save_top_k := 5;
              verbose := true;
              monitor := "avg_val_loss";
              mode := "min";
              period := -1;
              prefix := "" |}.
Proof.
  destruct (@checkpoints_ranked_by_avg_val_loss
              float binary64 (Example.world_scoring 0x1p-1%float)
              Example.default_args)
    as (_ & _ & _ & Hcallback & _ & _ & Hmain).
  destruct (Hmain [] _ _ _ eq_refl eq_refl eq_refl) as (later & Hlog & _).
  cbv zeta in Hlog. do 2 eexists. split.
  - rewrite Hlog. apply in_or_app. right. left. reflexivity.
  - exact Hcallback.
Defined.

(** ** Errors of the frameworks *)

Definition failed {A : Type} (r : result A) : option exn :=
  match r with
  | Ok _ => None
  | Raise e => Some e
  end.

(** The error a framework answers a call with, if it answers with one.  The
    model and the tokenizer are those of [self]. *)
Definition framework_failure {F : Type} (world : Frameworks F)
           (self : Summarizer F) (c : call F) : option exn :=
  match c with
  | CallModel input_ids attention_mask decoder_input_ids
              decoder_attention_mask labels =>
      failed (model_call (model self) input_ids attention_mask
                         decoder_input_ids decoder_attention_mask labels)
  | CallGenerate input_ids attention_mask use_cache max_length =>
      failed (generate (model self) input_ids attention_mask use_cache max_length)
  | CallBatchDecode ids skip => failed (batch_decode (tokenizer self) ids skip)
  | CallScore ref pred => failed (rouge_score world ref pred)
  | CallAllReduce name _ => failed (all_reduce_peers world name)
  | CallSeed _ _ => None
  | CallFromPretrainedTokenizer name =>
      failed (from_pretrained_tokenizer world name)
  | CallFromPretrainedModel path => failed (from_pretrained_model world path)
  | CallLoadDataset name config => failed (load_dataset world name config)
  | CallFit cfg module => failed (trainer_fit world cfg module)
  | CallTest cfg module => failed (trainer_test world cfg module)
  | CallPrint => None
  end.

(** A run: the calls made, and how it ended.  Either no call failed, or the
    last call failed, no call before it did, and its error is the result. *)
Definition run_ok {F A : Type} (fails : call F -> option exn)
           (r : result A) (calls : list (call F)) : Prop :=
  Forall (fun c => fails c = None) calls \/
  exists (pre : list (call F)) (c : call F) (e : exn),
    calls = pre ++ [c] /\ Forall (fun c' => fails c' = None) pre /\
    fails c = Some e /\ r = Raise e.

Definition propagates {F A : Type} (fails : call F -> option exn) (m : M F A)
  : Prop :=
  forall log0 : list (call F),
  exists calls : list (call F),
    snd (m log0) = log0 ++ calls /\ run_ok fails (fst (m log0)) calls.

(** The property of a computation the claim is about: a call that a
    framework answers with an error is the last call the computation makes,
    and the computation raises that error. *)
Definition halts_at_first_failure {F A : Type} (fails : call F -> option exn)
           (m : M F A) : Prop :=
  forall log0 : list (call F),
  exists calls : list (call F),
    snd (m log0) = log0 ++ calls /\
    forall (pre post : list (call F)) (c : call F) (e : exn),
      calls = pre ++ c :: post ->
      fails c = Some e ->
      post = [] /\ fst (m log0) = Raise e.

Section Propagation.

Context {F : Type}.
Variable fails : call F -> option exn.

Lemma propagates_ret (A : Type) (a : A) : propagates fails (ret a).
Proof. intros log0. exists []. rewrite app_nil_r. split; [reflexivity|now left]. Qed.

Lemma propagates_lift (A : Type) (r : result A) : propagates fails (lift r).
Proof. intros log0. exists []. rewrite app_nil_r. split; [reflexivity|now left]. Qed.

Lemma propagates_invoke (A : Type) (c : call F) (answer : result A) :
  fails c = failed answer -> propagates fails (invoke c answer).
Proof.
  intros Hc log0. exists [c]. split; [reflexivity|].
  unfold invoke. cbn [fst]. destruct answer as [a|e]; simpl in Hc.
  - left. now constructor.
  - right. exists [], c, e. repeat split; auto.
Qed.

Lemma propagates_bind (A B : Type) (m : M F A) (k : A -> M F B) :
  propagates fails m -> (forall a, propagates fails (k a)) ->
  propagates fails (bind m k).
Proof.
  intros Hm Hk log0. destruct (Hm log0) as (calls1 & Hlog1 & Hrun1).
  unfold bind. destruct (m log0) as [[a|e] log1]; cbn [fst snd] in *.
  - destruct (Hk a log1) as (calls2 & Hlog2 & Hrun2).
    exists (calls1 ++ calls2). split.
    + rewrite Hlog2, Hlog1. now rewrite app_assoc.
    + destruct Hrun1 as [Hall1|(pre & c & e & _ & _ & _ & Hr)];
        [|discriminate].
      destruct Hrun2 as [Hall2|(pre & c & e & -> & Hpre & Hc & Hr)].
      * left. now apply Forall_app.
      * right. exists (calls1 ++ pre), c, e.
        rewrite app_assoc. repeat split; auto. now apply Forall_app.
  - exists calls1. split; [exact Hlog1|].
    destruct Hrun1 as [Hall1|(pre & c & e' & Hcalls & Hpre & Hc & Hr)].
    + now left.
    + right. exists pre, c, e'. injection Hr as ->. repeat split; auto.
Qed.

Lemma propagates_halts (A : Type) (m : M F A) :
  propagates fails m -> halts_at_first_failure fails m.
Proof.
  intros Hm log0. destruct (Hm log0) as (calls & Hlog & Hrun).
  exists calls. split; [exact Hlog|].
  intros pre post c e -> Hc.
  destruct Hrun as [Hall|(pre' & c' & e' & Hcalls & Hpre & Hc' & Hr)].
  - apply Forall_app in Hall as [_ Hall]. inversion Hall; congruence.
  - destruct post as [|d post] using rev_ind.
    + apply app_inj_tail in Hcalls as [_ <-].
      split; [reflexivity|]. congruence.
    + clear IHpost. exfalso.
      replace (pre ++ c :: post ++ [d]) with ((pre ++ c :: post) ++ [d])
        in Hcalls by (now rewrite <- app_assoc).
      apply app_inj_tail in Hcalls as [<- _].
      apply Forall_app in Hpre as [_ Hpre]. inversion Hpre; congruence.
Qed.

End Propagation.

Section ScriptPropagates.

Context {F : Type} {ops : Scalar F}.
Variable world : Frameworks F.
Variable trainer : Trainer F.
Variable self : Summarizer F.

Let fails := framework_failure world self.

Local Ltac step :=
  first
    [ apply propagates_bind; [|intros ?]
    | apply propagates_ret
    | apply propagates_lift
    | apply propagates_invoke; reflexivity ].

Lemma forward_propagates (input_ids output_ids : tensor2) :
  propagates fails (forward self input_ids output_ids).
Proof. unfold forward. step. Qed.

Lemma training_step_propagates (batch : tensor2 * tensor2) (batch_nb : Z) :
  propagates fails (training_step world trainer self batch batch_nb).
Proof.
  unfold training_step. step; [apply forward_propagates|]. repeat step.
Qed.

Lemma score_loop_propagates (pairs : list (string * string)) (acc : F * F * F) :
  propagates fails (score_loop world pairs acc).
Proof.
  revert acc; induction pairs as [|[ref pred] pairs IH]; intros acc; simpl.
  - step.
  - step; [step|]. destruct acc as [[r1 r2] rl]. apply IH.
Qed.

Lemma validation_step_propagates (batch : tensor2 * tensor2) (batch_nb : Z) :
  propagates fails (validation_step world self batch batch_nb).
Proof.
  unfold validation_step. step; [apply forward_propagates|].
  destruct batch as [input_ids output_ids].
  step; [step|]. step; [step|]. step; [step|].
  step; [apply score_loop_propagates|].
  match goal with a : (F * F * F)%type |- _ => destruct a as [[r1 r2] rl] end.
  repeat step.
Qed.

Lemma reduce_metric_propagates (outputs : list (ValidationOutput F))
      (name : string) :
  propagates fails (reduce_metric world trainer outputs name).
Proof.
  unfold reduce_metric. step; [step|]. step; [step|].
  destruct (use_ddp trainer); [|step].
  step; [|step]. unfold all_reduce. step; [step|step].
Qed.

Lemma reduce_metrics_propagates (outputs : list (ValidationOutput F))
      (names : list string) (metrics : list F) :
  propagates fails (reduce_metrics world trainer outputs names metrics).
Proof.
  revert metrics; induction names as [|name names IH]; intros metrics; simpl.
  - step.
  - step; [apply reduce_metric_propagates|apply IH].
Qed.

Lemma validation_epoch_end_propagates (outputs : list (ValidationOutput F)) :
  propagates fails (validation_epoch_end world trainer outputs).
Proof.
  unfold validation_epoch_end. step; [apply reduce_metrics_propagates|].
  repeat step.
Qed.

Lemma test_epoch_end_propagates (outputs : list (ValidationOutput F)) :
  propagates fails (test_epoch_end world trainer outputs).
Proof.
  unfold test_epoch_end. step; [apply validation_epoch_end_propagates|step].
Qed.

Lemma main_propagates (args0 : Args.t F) :
  propagates fails (main world args0).
Proof.
  unfold main. step.
  { unfold seed_everything. repeat step.
    destruct (cuda_is_available world); step. }
  step; [unfold Summarizer_init; repeat step|].
  step; [step|]. step; [step|].
  step; [destruct (negb (Args.test args0)); step|step].
Qed.

End ScriptPropagates.

(** C10.  The script has no handler and no retry: in the training step, the
    validation and test steps, the epoch-end reductions and [main], a call
    that a framework answers with an error is the last call made, and the
    error raised is that same error. *)
Theorem framework_errors_propagate (F : Type) (ops : Scalar F)
        (world : Frameworks F) (trainer : Trainer F) (self : Summarizer F) :
  let fails := framework_failure world self in
  (forall (batch : tensor2 * tensor2) (batch_nb : Z),
      halts_at_first_failure fails
        (training_step world trainer self batch batch_nb)) /\
  (forall (batch : tensor2 * tensor2) (batch_nb : Z),
      halts_at_first_failure fails (validation_step world self batch batch_nb)) /\
  (forall (batch : tensor2 * tensor2) (batch_nb : Z),
      halts_at_first_failure fails (test_step world self batch batch_nb)) /\
  (forall outputs : list (ValidationOutput F),
      halts_at_first_failure fails (validation_epoch_end world trainer outputs)) /\
  (forall outputs : list (ValidationOutput F),
      halts_at_first_failure fails (test_epoch_end world trainer outputs)) /\
  (forall args0 : Args.t F,
      halts_at_first_failure fails (main world args0)).
Proof.
  intros fails. repeat split; intros; apply propagates_halts.
  - apply training_step_propagates.
  - apply validation_step_propagates.
  - unfold test_step. apply validation_step_propagates.
  - apply validation_epoch_end_propagates.
  - apply test_epoch_end_propagates.
  - apply main_propagates.
Qed.

Lemma framework_errors_propagate_witness :
  fst (training_step (Example.world_scoring 0x1p-1%float) Example.trainer
                     Example.summarizer_failing
                     ([[5; 1]; [5; 7]], [[0; 1; 1]; [0; 6; 2]])%Z 0%Z [])
  = Raise Example.out_of_memory /\
  fst (main Example.world_fit_fails Example.default_args [])
  = Raise Example.out_of_memory.
Proof.
  split.
  - destruct (proj1 (@framework_errors_propagate
                       float binary64 (Example.world_scoring 0x1p-1%float)
                       Example.trainer Example.summarizer_failing)
                    ([[5; 1]; [5; 7]], [[0; 1; 1]; [0; 6; 2]])%Z 0%Z [])
      as (calls & Hlog & Hhalt).
    vm_compute in Hlog. subst calls.
    exact (proj2 (Hhalt [] [] _ Example.out_of_memory eq_refl eq_refl)).
  - destruct (proj2 (proj2 (proj2 (proj2 (proj2
                (@framework_errors_propagate
                   float binary64 Example.world_fit_fails
                   Example.trainer Example.summarizer_failing)))))
                    Example.default_args [])
      as (calls & Hlog & Hhalt).
    cbn [app] in Hlog. subst calls.
    exact (proj2 (Hhalt (removelast (snd (main Example.world_fit_fails
                                               Example.default_args [])))
                        []
                        (last (snd (main Example.world_fit_fails
                                         Example.default_args []))
                              CallPrint)
                        Example.out_of_memory eq_refl eq_refl)).
Defined.

(** * The rest of the script *)

(** ** Data loaders *)

(** [torch.utils.data.distributed.DistributedSampler(dataset, shuffle=...)] *)
Record DistributedSampler : Type := {
  sampler_dataset : SummarizationDataset;
  sampler_shuffle : bool
}.

(** The arguments the script gives [DataLoader]; [collate_fn] is always
    [SummarizationDataset.collate_fn].  The checks the constructor makes on
    them are torch's. *)
Record DataLoader : Type := {
  dl_dataset : SummarizationDataset;
  dl_batch_size : Z;
  dl_shuffle : bool;
  dl_num_workers : Z;
  dl_sampler : option DistributedSampler
}.

(** The three loaders the module caches; [__init__] sets them to [None]. *)
Record Loaders : Type := {
  train_dataloader_object : option DataLoader;
  val_dataloader_object : option DataLoader;
  test_dataloader_object : option DataLoader
}.

Definition no_loaders : Loaders :=
  {| train_dataloader_object := None;
     val_dataloader_object := None;
     test_dataloader_object := None |}.

Section DataLoaders.

Context {F : Type}.
Variable trainer : Trainer F.
Variable self : Summarizer F.

Definition _get_dataloader (current_dataloader : option DataLoader)
           (split_name : string) (is_train : bool) : result DataLoader :=
  match current_dataloader with
  | Some loader => Ok loader
  | None =>
      (split <- dict_get (hf_datasets self) split_name ;;
       let dataset :=
         {| hf_dataset := split;
            ds_tokenizer := tokenizer self;
            max_input_len := Args.max_input_len (args self);
            max_output_len := Args.max_output_len (args self) |} in
       let sampler :=
         if use_ddp trainer
         then Some {| sampler_dataset := dataset; sampler_shuffle := is_train |}
         else None in
       Ok {| dl_dataset := dataset;
             dl_batch_size := Args.batch_size (args self);
             dl_shuffle := match sampler with None => true | Some _ => false end;
             dl_num_workers := Args.num_workers (args self);
             dl_sampler := sampler |})%result
  end.

Definition train_dataloader (loaders : Loaders) : result (DataLoader * Loaders) :=
  (loader <- _get_dataloader (train_dataloader_object loaders) "train" true ;;
   Ok (loader,
       {| train_dataloader_object := Some loader;
          val_dataloader_object := val_dataloader_object loaders;
          test_dataloader_object := test_dataloader_object loaders |}))%result.

Definition val_dataloader (loaders : Loaders) : result (DataLoader * Loaders) :=
  let split_name :=
    if negb (Args.debug (args self)) then "validation"%string else "train"%string in
  (loader <- _get_dataloader (val_dataloader_object loaders) split_name false ;;
   Ok (loader,
       {| train_dataloader_object := train_dataloader_object loaders;
          val_dataloader_object := Some loader;
          test_dataloader_object := test_dataloader_object loaders |}))%result.

Definition test_dataloader (loaders : Loaders) : result (DataLoader * Loaders) :=
  (loader <- _get_dataloader (test_dataloader_object loaders) "test" false ;;
   Ok (loader,
       {| train_dataloader_object := train_dataloader_object loaders;
          val_dataloader_object := val_dataloader_object loaders;
          test_dataloader_object := Some loader |}))%result.

End DataLoaders.

(** ** configure_optimizers *)

(** [torch.optim.Adam(self.model.parameters(), lr=...)] *)
Record Adam (F : Type) : Type := { adam_lr : F }.

(** [get_linear_schedule_with_warmup(optimizer, num_warmup_steps,
    num_training_steps)] with the interval the script attaches to it. *)
Record Schedule (F : Type) : Type := {
  scheduled_optimizer : Adam F;
  num_warmup_steps : Z;
  num_training_steps : F;
  interval : string
}.

(** What [configure_optimizers] returns: the optimizer alone, or a list of
    optimizers with a list of schedules. *)
Inductive OptimizerSetup (F : Type) : Type :=
| ConstantLR (optimizer : Adam F)
| Scheduled (optimizers : list (Adam F)) (schedules : list (Schedule F)).

Arguments ConstantLR {F} optimizer.
Arguments Scheduled {F} optimizers schedules.

(** Python's [a / b] on two ints.  The operands of the script are far below
    2^53, where the conversion to float is exact. *)
Definition py_true_div {F : Type} `{Scalar F} (a b : Z) : result F :=
  if (b =? 0)%Z then Raise ZeroDivisionError
  else Ok (fdiv (of_int a) (of_int b)).

(** Python's [x / n] for a float [x] and an int [n] of any sign. *)
Definition py_div_int {F : Type} `{Scalar F} (x : F) (n : Z) : result F :=
  if (n =? 0)%Z then Raise ZeroDivisionError
  else Ok (fdiv x (of_int n)).

(** The value [main] stores in [args.dataset_size]. *)
Definition main_dataset_size : Z := 203037.

(** [configure_optimizers]: [dataset_size] is the attribute [main] adds to
    the arguments, [num_gpus] the answer of [torch.cuda.device_count()]. *)
Definition configure_optimizers {F : Type} `{Scalar F} (self : Summarizer F)
           (dataset_size num_gpus : Z) : result (OptimizerSetup F) :=
  let optimizer := {| adam_lr := Args.lr (args self) |} in
  if Args.debug (args self) then Ok (ConstantLR optimizer)
  else
    (steps_per_gpu <- py_true_div (dataset_size * Args.epochs (args self)) num_gpus ;;
     num_steps <- py_div_int steps_per_gpu (Args.grad_accum (args self)) ;;
     let scheduler :=
       {| scheduled_optimizer := optimizer;
          num_warmup_steps := Args.warmup (args self);
          num_training_steps := num_steps;
          interval := "step" |} in
     Ok (Scheduled [optimizer] [scheduler]))%result.

(** ** More on the dataset and the collator *)

(** X1.  [collate_fn] raises exactly on the empty batch, and then it raises
    ValueError: there is nothing to unpack. *)
Theorem collate_fn_raises_iff_empty (batch : list (tensor1 * tensor1)) :
  ((exists e : exn, collate_fn batch = Raise e) <-> batch = []) /\
  (batch = [] -> collate_fn batch = Raise ValueError).
Proof.
  split; [split|].
  - intros [e He]. destruct batch as [|p batch']; [reflexivity|].
    rewrite collate_fn_rows in He by discriminate. discriminate.
  - intros ->. exists ValueError. reflexivity.
  - intros ->. reflexivity.
Qed.

Lemma collate_fn_raises_iff_empty_witness :
  collate_fn [] = Raise ValueError.
Proof.
  exact (proj2 (collate_fn_raises_iff_empty []) eq_refl).
Defined.

Lemma max_len_constant (n : nat) (sequences : list tensor1) :
  sequences <> [] ->
  Forall (fun t => length t = n) sequences ->
  max_len sequences = n.
Proof.
  intros Hne Hall. unfold max_len.
  destruct sequences as [|t ts]; [congruence|]. clear Hne.
  apply Forall_cons_iff in Hall as [Ht Hts].
  simpl. rewrite Ht.
  induction Hts as [|u us Hu _ IH]; simpl; [lia|]. rewrite Hu. lia.
Qed.

Lemma pad_nothing (v : Z) (n : nat) (sequences : list tensor1) :
  Forall (fun t => length t = n) sequences ->
  map (fun t => t ++ repeat v (n - length t)) sequences = sequences.
Proof.
  induction 1 as [|t ts Ht _ IH]; simpl; [reflexivity|].
  rewrite IH, Ht, Nat.sub_diag. simpl. now rewrite app_nil_r.
Qed.

(** X2.  A batch whose inputs all have one length and whose targets all
    have one length is collated without any padding: the tensors are the
    sequences themselves. *)
Theorem collate_fn_equal_lengths (batch : list (tensor1 * tensor1))
        (n m : nat) :
  batch <> [] ->
  Forall (fun p => length (fst p) = n /\ length (snd p) = m) batch ->
  collate_fn batch = Ok (map fst batch, map snd batch).
Proof.
  intros Hne Hall.
  assert (Hin : Forall (fun t : tensor1 => length t = n) (map fst batch))
    by (rewrite Forall_map; eapply Forall_impl; [|exact Hall]; now intros p [? ?]).
  assert (Hout : Forall (fun t : tensor1 => length t = m) (map snd batch))
    by (rewrite Forall_map; eapply Forall_impl; [|exact Hall]; now intros p [? ?]).
  assert (Hfst : map fst batch <> []) by (destruct batch; [congruence|discriminate]).
  assert (Hsnd : map snd batch <> []) by (destruct batch; [congruence|discriminate]).
  rewrite (collate_fn_rows Hne).
  rewrite (@max_len_constant n (map fst batch) Hfst Hin).
  rewrite (@max_len_constant m (map snd batch) Hsnd Hout).
  now rewrite (@pad_nothing collate_pad_token_id n _ Hin),
              (@pad_nothing collate_pad_token_id m _ Hout).
Qed.

Lemma collate_fn_equal_lengths_witness :
  collate_fn [([5; 6], [0; 7; 2]); ([8; 9], [0; 3; 2])]%Z
  = Ok ([[5; 6]; [8; 9]], [[0; 7; 2]; [0; 3; 2]])%Z.
Proof.
  apply (@collate_fn_equal_lengths
           [([5; 6], [0; 7; 2]); ([8; 9], [0; 3; 2])]%Z 2 3).
  - discriminate.
  - repeat constructor.
Defined.

(** X3.  The sizes a training step logs for a collated batch are the number
    of examples times the length of the longest input, and times the length
    of the longest target. *)
Theorem collated_numel (batch : list (tensor1 * tensor1))
        (input_ids output_ids : tensor2) :
  collate_fn batch = Ok (input_ids, output_ids) ->
  numel input_ids
  = (Z.of_nat (length batch) * Z.of_nat (max_len (map fst batch)))%Z /\
  numel output_ids
  = (Z.of_nat (length batch) * Z.of_nat (max_len (map snd batch)))%Z.
Proof.
  intros Hc. pose proof (collate_fn_inv _ Hc) as [-> ->].
  destruct batch as [|[a b] batch']; [discriminate|].
  unfold numel. rewrite !length_map. cbn [map hd fst snd].
  rewrite !padded_row_length; [split; reflexivity| |];
    apply length_le_max_len; simpl; auto.
Qed.

Lemma collated_numel_witness :
  numel [[5; 1]; [5; 7]]%Z = 4%Z /\ numel [[0; 1; 1]; [0; 6; 2]]%Z = 6%Z.
Proof.
  exact (@collated_numel uneven_batch _ _ uneven_batch_collated).
Defined.

(** X4.  [__getitem__] returns a pair exactly at the indices below
    [__len__], and raises IndexError at every other index. *)
Theorem getitem_in_range_iff (self : SummarizationDataset) (idx : nat) :
  ((exists p : tensor1 * tensor1, getitem self idx = Ok p)
   <-> idx < dataset_len self) /\
  (getitem self idx = Raise IndexError <-> dataset_len self <= idx).
Proof.
  unfold getitem, dataset_len.
  destruct (nth_error (hf_dataset self) idx) as [entry|] eqn:Hnth.
  - assert (Hlt : idx < length (hf_dataset self))
      by (apply nth_error_Some; congruence).
    split; split; intros Hx.
    + exact Hlt.
    + eexists. reflexivity.
    + discriminate.
    + lia.
  - apply nth_error_None in Hnth.
    split; split; intros Hx.
    + destruct Hx as [p Hp]. discriminate.
    + lia.
    + exact Hnth.
    + reflexivity.
Qed.

(** ** More on forward *)

(** X5.  No label that [forward] passes to the model is the pad token of
    the tokenizer, unless that token is -100 itself. *)
Theorem labels_never_pad (F : Type) (self : Summarizer F)
        (output_ids : tensor2) (i j : nat) (x : Z) :
  at2 (labels_of self output_ids) i j = Some x ->
  x <> pad_token_id (tokenizer self) \/
  pad_token_id (tokenizer self) = ignore_index.
Proof.
  rewrite labels_of_replace, at2_replace_token.
  destruct (at2 (drop_first_column output_ids) i j) as [y|]; [|discriminate].
  simpl. destruct (Z.eqb_spec y (pad_token_id (tokenizer self))) as [Heq|Hne];
    intros Hx; injection Hx as <-.
  - destruct (Z.eq_dec (pad_token_id (tokenizer self)) ignore_index);
      [now right|left; congruence].
  - now left.
Qed.

Lemma labels_never_pad_witness :
  (-100)%Z <> pad_token_id (tokenizer (Example.summarizer 1)) \/
  pad_token_id (tokenizer (Example.summarizer 1)) = ignore_index.
Proof.
  exact (@labels_never_pad float (Example.summarizer 1)
           [[0; 1; 1]; [0; 6; 2]]%Z 0 0 (-100)%Z eq_refl).
Defined.

(** ** More on the steps *)

(** X6.  With no validation outputs there is nothing to stack:
    [validation_epoch_end] raises RuntimeError before any all_reduce, under
    distributed training too.  Without distributed training it makes no call
    at all, and it returns exactly when there is at least one output. *)
Theorem validation_epoch_end_raises_iff_no_outputs (F : Type) (ops : Scalar F)
        (world : Frameworks F) (trainer : Trainer F)
        (outputs : list (ValidationOutput F)) (log0 : list (call F)) :
  validation_epoch_end world trainer [] log0 = (Raise RuntimeError, log0) /\
  (use_ddp trainer = false ->
   snd (validation_epoch_end world trainer outputs log0) = log0 /\
   ((exists r : EpochEndOutput F,
        fst (validation_epoch_end world trainer outputs log0) = Ok r)
    <-> outputs <> []) /\
   (fst (validation_epoch_end world trainer outputs log0) = Raise RuntimeError
    <-> outputs = [])).
Proof.
  split; [reflexivity|]. intros Huse.
  destruct outputs as [|x xs] eqn:Hout.
  - split; [reflexivity|]. split; split; intros Hx;
      first [reflexivity | congruence | destruct Hx; discriminate].
  - rewrite <- Hout.
    assert (Hne : outputs <> []) by (rewrite Hout; discriminate).
    assert (Hrun : exists r, validation_epoch_end world trainer outputs log0
                             = (Ok r, log0)).
    { unfold validation_epoch_end, metric_names, reduce_metrics.
      unfold bind at 1. unfold bind at 1.
      rewrite (reduce_metric_run world trainer Hne "vloss" (@vloss F) log0
                 (@get_metric_vloss F)), Huse.
      unfold bind.
      rewrite (reduce_metric_run world trainer Hne "rouge1" (@rouge1 F) _
                 (@get_metric_rouge1 F)), Huse.
      rewrite (reduce_metric_run world trainer Hne "rouge2" (@rouge2 F) _
                 (@get_metric_rouge2 F)), Huse.
      rewrite (reduce_metric_run world trainer Hne "rougeL" (@rougeL F) _
                 (@get_metric_rougeL F)), Huse.
      unfold ret, lift. simpl. eexists. reflexivity. }
    destruct Hrun as [r Hr]. rewrite Hr. cbn [fst snd].
    split; [reflexivity|]. split; split; intros Hx;
      first [exact Hne | now exists r | discriminate | congruence].
Qed.

(** X7.  The learning rate is read after the forward pass: when the model
    answers but the trainer has no optimizer, or its first optimizer has no
    parameter group, the training step raises IndexError, the call of the
    model already made. *)
Theorem training_step_without_learning_rate (F : Type) (ops : Scalar F)
        (world : Frameworks F) (trainer : Trainer F) (self : Summarizer F)
        (batch : tensor2 * tensor2) (batch_nb : Z) (log0 : list (call F))
        (out : ModelOutput F) :
  fst (forward self (fst batch) (snd batch) log0) = Ok out ->
  optimizers trainer = [] \/
  (exists others : list (Optimizer F),
      optimizers trainer = {| param_groups := [] |} :: others) ->
  training_step world trainer self batch batch_nb log0
  = (Raise IndexError, snd (forward self (fst batch) (snd batch) log0)).
Proof.
  intros Hout Hopt. unfold training_step.
  rewrite (@bind_ok _ _ _ _ _ log0
             (snd (forward self (fst batch) (snd batch) log0)) out)
    by (rewrite <- Hout; now destruct (forward self (fst batch) (snd batch) log0)).
  unfold bind, lift.
  destruct Hopt as [->|(others & ->)]; reflexivity.
Qed.

Lemma training_step_without_learning_rate_witness :
  training_step (Example.world_scoring 0x1p-1%float)
                {| use_ddp := false; world_size := 1; optimizers := [] |}
                (Example.summarizer 1)
                ([[5; 1]; [5; 7]], [[0; 1; 1]; [0; 6; 2]])%Z 0%Z []
  = (Raise IndexError,
     [CallModel [[5; 1]; [5; 7]]%Z
                [[1; 0]; [1; 1]]%Z
                [[0; 1]; [0; 6]]%Z
                [[true; false]; [true; true]]
                [[-100; -100]; [6; 2]]%Z]).
Proof.
  exact (@training_step_without_learning_rate
           float binary64 (Example.world_scoring 0x1p-1%float)
           {| use_ddp := false; world_size := 1; optimizers := [] |}
           (Example.summarizer 1)
           ([[5; 1]; [5; 7]], [[0; 1; 1]; [0; 6; 2]])%Z 0%Z []
           {| loss := 0x1p-1%float |} eq_refl (or_introl eq_refl)).
Defined.

Lemma reduce_metrics_length (F : Type) (ops : Scalar F) (world : Frameworks F)
      (trainer : Trainer F) (outputs : list (ValidationOutput F))
      (names : list string) :
  forall (metrics done : list F) (log0 log1 : list (call F)),
    reduce_metrics world trainer outputs names metrics log0 = (Ok done, log1) ->
    length done = length metrics + length names.
Proof.
  induction names as [|name names IH]; intros metrics done log0 log1; simpl.
  - unfold ret. intros Hr. injection Hr as <- _. lia.
  - unfold bind.
    destruct (reduce_metric world trainer outputs name log0) as [[metric|e] log'];
      [|discriminate].
    intros Hr. apply IH in Hr. rewrite length_app in Hr. simpl in Hr. lia.
Qed.

(** X8.  Whenever [validation_epoch_end] returns, its 'log' holds exactly
    the four metrics, under the names vloss, rouge1, rouge2 and rougeL in
    this order, each of them can be looked up, and 'progress_bar' is the same
    dict. *)
Theorem validation_epoch_end_log_keys (F : Type) (ops : Scalar F)
        (world : Frameworks F) (trainer : Trainer F)
        (outputs : list (ValidationOutput F)) (log0 : list (call F))
        (r : EpochEndOutput F) :
  fst (validation_epoch_end world trainer outputs log0) = Ok r ->
  map fst (log r) = metric_names /\
  progress_bar r = log r /\
  forall name : string,
    In name metric_names -> exists v : F, dict_get (log r) name = Ok v.
Proof.
  unfold validation_epoch_end, bind, lift, ret.
  destruct (reduce_metrics world trainer outputs metric_names [] log0)
    as [[metrics|e] log1] eqn:Hred; [|discriminate].
  apply reduce_metrics_length in Hred. simpl in Hred.
  destruct metrics as [|m1 [|m2 [|m3 [|m4 [|m5 rest]]]]]; try discriminate.
  cbn. intros Hr. injection Hr as <-. cbn.
  split; [reflexivity|]. split; [reflexivity|].
  intros name [<-|[<-|[<-|[<-|[]]]]]; eexists; reflexivity.
Qed.

Lemma validation_epoch_end_log_keys_witness :
  exists r : EpochEndOutput float,
    fst (validation_epoch_end Example.world_ddp Example.trainer_ddp
                              Example.two_outputs []) = Ok r /\
    map fst (log r) = ["vloss"; "rouge1"; "rouge2"; "rougeL"]%string.
Proof.
  eexists. split; [reflexivity|].
  exact (proj1 (@validation_epoch_end_log_keys
                  float binary64 Example.world_ddp Example.trainer_ddp
                  Example.two_outputs [] _ eq_refl)).
Defined.

(** The sum of a list of rationals. *)
Definition qsum (xs : list Q) : Q := fold_right Qplus 0%Q xs.

Lemma fold_left_Qplus_qsum (xs : list Q) (a : Q) :
  (fold_left Qplus xs a == a + qsum xs)%Q.
Proof.
  revert a; induction xs as [|x xs IH]; intros a; simpl.
  - ring.
  - rewrite IH. ring.
Qed.

Lemma qsum_app (xs ys : list Q) : (qsum (xs ++ ys) == qsum xs + qsum ys)%Q.
Proof.
  induction xs as [|x xs IH]; simpl; [ring|]. rewrite IH. ring.
Qed.

Lemma mean_of_exact (xs : list Q) :
  (@mean_of Q exact xs == qsum xs / inject_Z (Z.of_nat (length xs)))%Q.
Proof.
  unfold mean_of, accumulate. cbn [fadd fdiv f0 of_int exact].
  rewrite fold_left_Qplus_qsum. now rewrite Qplus_0_l.
Qed.

Lemma qsum_shard_means (n : nat) (shards : list (list Q)) :
  Forall (fun shard => length shard = S n) shards ->
  (qsum (map (@mean_of Q exact) shards)
   == qsum (concat shards) / inject_Z (Z.of_nat (S n)))%Q /\
  length (concat shards) = length shards * S n.
Proof.
  assert (Hn : ~ (inject_Z (Z.of_nat (S n)) == 0)%Q)
    by (unfold Qeq; simpl; lia).
  induction 1 as [|shard shards Hlen _ [IHsum IHlen]].
  - split; [|reflexivity]. simpl. field. exact Hn.
  - split.
    + cbn [map qsum fold_right concat].
      change (fold_right Qplus 0%Q (map (@mean_of Q exact) shards))
        with (qsum (map (@mean_of Q exact) shards)).
      change (fold_right Qplus 0%Q (shard ++ concat shards))
        with (qsum (shard ++ concat shards)).
      rewrite IHsum, mean_of_exact, qsum_app, Hlen. field. exact Hn.
    + cbn [concat]. rewrite length_app, IHlen, Hlen. simpl. lia.
Qed.

(** X9.  In exact arithmetic, when every worker has the same number of
    validation batches, what a metric is reduced to under distributed
    training (the mean of the means of the workers) is the mean over all
    batches of all workers. *)
Theorem ddp_equal_shards_global_mean (world : Frameworks Q) (trainer : Trainer Q)
        (outputs : list (ValidationOutput Q)) (name : string)
        (f : ValidationOutput Q -> Q) (others : list (list Q)) (n : nat)
        (log0 : list (call Q)) :
  (forall x, get_metric x name = Ok (f x)) ->
  use_ddp trainer = true ->
  all_reduce_peers world name = Ok (map (@mean_of Q exact) others) ->
  world_size trainer = Z.of_nat (S (length others)) ->
  length outputs = S n ->
  Forall (fun shard => length shard = S n) others ->
  exists v : Q,
    fst (@reduce_metric Q exact world trainer outputs name log0) = Ok v /\
    (v == @mean_of Q exact (map f outputs ++ concat others))%Q.
Proof.
  intros Hget Huse Hpeers Hworld Hlen Hshards.
  assert (Hne : outputs <> []) by (destruct outputs; [discriminate|congruence]).
  rewrite (@reduce_metric_run Q exact world trainer outputs Hne name f log0 Hget).
  rewrite Huse, Hpeers. cbn [fst]. eexists. split; [reflexivity|].
  destruct (qsum_shard_means Hshards) as [Hsum Hcount].
  cbn [fadd fdiv of_int exact].
  rewrite fold_left_Qplus_qsum, Hsum, !mean_of_exact, qsum_app, Hworld.
  rewrite length_app, !length_map, Hcount, Hlen.
  replace (S n + length others * S n) with (S (length others) * S n) by lia.
  rewrite Nat2Z.inj_mul, inject_Z_mult.
  assert (Hn : ~ (inject_Z (Z.of_nat (S n)) == 0)%Q)
    by (unfold Qeq; simpl; lia).
  assert (Hk : ~ (inject_Z (Z.of_nat (S (length others))) == 0)%Q)
    by (unfold Qeq; simpl; lia).
  field. split; assumption.
Qed.

(** A second worker that holds the validation losses 1 and 3, in exact
    arithmetic. *)
Definition exact_world_two_workers : Frameworks Q :=
  {| rouge_score := fun _ _ =>
       Ok {| rouge1_f := 0%Q; rouge2_f := 0%Q; rougeL_f := 0%Q |};
     cuda_memory_allocated := 0;
     all_reduce_peers := fun _ => Ok (map (@mean_of Q exact) [[1; 3]%Q]);
     cuda_is_available := false;
     from_pretrained_tokenizer := fun _ => Ok (Example.tokenizer_with_pad 1);
     from_pretrained_model := fun _ => Raise (FrameworkError "no model");
     load_dataset := fun _ _ => Ok [];
     os_path_join := fun a b c => (a ++ "/" ++ b ++ "/" ++ c)%string;
     trainer_fit := fun _ _ => Ok tt;
     trainer_test := fun _ _ => Ok tt |}.

Definition exact_two_outputs : list (ValidationOutput Q) :=
  [ {| vloss := 2%Q; rouge1 := 0%Q; rouge2 := 0%Q; rougeL := 0%Q |};
    {| vloss := 4%Q; rouge1 := 0%Q; rouge2 := 0%Q; rougeL := 0%Q |} ].

Lemma ddp_equal_shards_global_mean_witness :
  exists v : Q,
    fst (@reduce_metric Q exact exact_world_two_workers
           {| use_ddp := true; world_size := 2; optimizers := [] |}
           exact_two_outputs "vloss" []) = Ok v /\
    (v == 5 # 2)%Q.
Proof.
  destruct (@ddp_equal_shards_global_mean
              exact_world_two_workers
              {| use_ddp := true; world_size := 2; optimizers := [] |}
              exact_two_outputs "vloss" (@vloss Q) [[1; 3]%Q] 1 []
              (@get_metric_vloss Q) eq_refl eq_refl eq_refl eq_refl
              ltac:(repeat constructor))
    as (v & Hv & Hmean).
  exists v. split; [exact Hv|].
  rewrite Hmean. vm_compute. reflexivity.
Defined.

(** ** More on main *)


(** X10.  With [--test], [main] never calls fit: once the tokenizer, the
    model and the dataset are loaded it calls test, once, and ends as test
    ends.  Without [--test] it calls fit first, and test only after fit has
    returned. *)
Theorem main_fit_then_test (F : Type) (ops : Scalar F) (world : Frameworks F)
        (args0 : Args.t F) (log0 : list (call F)) (tok : Tokenizer)
        (lm : Seq2SeqLM F) (datasets : list (string * list Entry)) :
  from_pretrained_tokenizer world (Args.tokenizer args0) = Ok tok ->
  from_pretrained_model world (Args.model_path args0) = Ok lm ->
  load_dataset world "scientific_papers" "arxiv" = Ok datasets ->
  let self := {| args := args0; tokenizer := tok; model := lm;
                 hf_datasets := datasets |} in
  let cfg := main_config world args0 in
  let loaded :=
    log0 ++ seed_calls world args0
         ++ [CallFromPretrainedTokenizer (Args.tokenizer args0);
             CallFromPretrainedModel (Args.model_path args0);
             CallLoadDataset "scientific_papers" "arxiv";
             CallPrint] in
  main world args0 log0
  = if Args.test args0
    then (trainer_test world cfg self, loaded ++ [CallTest cfg self])
    else match trainer_fit world cfg self with
         | Ok _ => (trainer_test world cfg self,
                    loaded ++ [CallFit cfg self; CallTest cfg self])
         | Raise e => (Raise e, loaded ++ [CallFit cfg self])
         end.
Proof.
  intros Htok Hlm Hds self cfg loaded.
  rewrite main_run. unfold main_outcome. rewrite Htok, Hlm, Hds.
  fold self cfg. subst loaded.
  destruct (Args.test args0).
  - now rewrite <- !app_assoc.
  - destruct (trainer_fit world cfg self); now rewrite <- !app_assoc.
Qed.

Lemma main_fit_then_test_witness :
  fst (main (Example.world_scoring 0x1p-1%float) Example.default_args []) = Ok tt /\
  length (snd (main (Example.world_scoring 0x1p-1%float) Example.default_args []))
  = 9.
Proof.
  pose proof (@main_fit_then_test
                float binary64 (Example.world_scoring 0x1p-1%float)
                Example.default_args [] _ _ _ eq_refl eq_refl eq_refl) as Hmain.
  cbv zeta in Hmain. rewrite Hmain. split; reflexivity.
Defined.


(** ** configure_optimizers *)

Lemma configure_optimizers_scheduled (F : Type) (ops : Scalar F)
      (self : Summarizer F) (dataset_size num_gpus : Z) :
  Args.debug (args self) = false ->
  num_gpus <> 0%Z -> Args.grad_accum (args self) <> 0%Z ->
  configure_optimizers self dataset_size num_gpus
  = Ok (Scheduled
          [ {| adam_lr := Args.lr (args self) |} ]
          [ {| scheduled_optimizer := {| adam_lr := Args.lr (args self) |};
               num_warmup_steps := Args.warmup (args self);
               num_training_steps :=
                 fdiv (fdiv (of_int (dataset_size * Args.epochs (args self)))
                            (of_int num_gpus))
                      (of_int (Args.grad_accum (args self)));
               interval := "step" |} ]).
Proof.
  intros Hdebug Hg Ha.
  unfold configure_optimizers, py_true_div, py_div_int, rbind.
  rewrite Hdebug.
  apply Z.eqb_neq in Hg, Ha. now rewrite Hg, Ha.
Qed.



(** X13.  In exact arithmetic the number of training steps of the schedule
    is the dataset size times the epochs, over the number of GPUs times the
    gradient accumulation steps. *)
Theorem configure_optimizers_num_steps (self : Summarizer Q)
        (dataset_size num_gpus : Z) :
  Args.debug (args self) = false ->
  num_gpus <> 0%Z -> Args.grad_accum (args self) <> 0%Z ->
  exists (optimizer : Adam Q) (schedule : Schedule Q),
    @configure_optimizers Q exact self dataset_size num_gpus
    = Ok (Scheduled [optimizer] [schedule]) /\
    (num_training_steps schedule
     == inject_Z (dataset_size * Args.epochs (args self))
        / inject_Z (num_gpus * Args.grad_accum (args self)))%Q.
Proof.
  intros Hdebug Hg Ha.
  rewrite (@configure_optimizers_scheduled Q exact self dataset_size num_gpus
             Hdebug Hg Ha).
  do 2 eexists. split; [reflexivity|].
  cbn [num_training_steps fdiv of_int exact].
  rewrite inject_Z_mult with (x := num_gpus).
  assert (Hg' : ~ (inject_Z num_gpus == 0)%Q)
    by (unfold Qeq; simpl; lia).
  assert (Ha' : ~ (inject_Z (Args.grad_accum (args self)) == 0)%Q)
    by (unfold Qeq; simpl; lia).
  field. split; assumption.
Qed.

(** The default arguments in exact arithmetic, on a module without model
    answers. *)
Definition exact_summarizer : Summarizer Q :=
  {| args :=
       {| Args.save_dir := "summarization";
          Args.save_prefix := "test";
          Args.batch_size := 16;
          Args.grad_accum := 1;
          Args.gpus := -1;
          Args.warmup := 1000;
          Args.lr := (3 # 100000)%Q;
          Args.val_every := 1%Q;
          Args.val_percent_check := 1%Q;
          Args.num_workers := 0;
          Args.seed := 1234;
          Args.epochs := 5;
          Args.disable_checkpointing := false;
          Args.max_output_len := 256;
          Args.max_input_len := 512;
          Args.test := false;
          Args.model_path := "facebook/bart-base";
          Args.tokenizer := "facebook/bart-base";
          Args.no_progress_bar := false;
          Args.fp32 := false;
          Args.debug := false;
          Args.resume_ckpt := None |};
     tokenizer := Example.tokenizer_with_pad 1;
     model := {| model_call := fun _ _ _ _ _ => Raise (FrameworkError "no model");
                 generate := fun _ _ _ _ => Raise (FrameworkError "no model") |};
     hf_datasets := [("train"%string, [ {| article := "a long article";
                                           abstract := "short" |} ])] |}.

Lemma configure_optimizers_num_steps_witness :
  exists (optimizer : Adam Q) (schedule : Schedule Q),
    @configure_optimizers Q exact exact_summarizer main_dataset_size 8
    = Ok (Scheduled [optimizer] [schedule]) /\
    (num_training_steps schedule == 1015185 # 8)%Q.
Proof.
  destruct (@configure_optimizers_num_steps exact_summarizer main_dataset_size 8
              eq_refl ltac:(discriminate) ltac:(discriminate))
    as (optimizer & schedule & Hcfg & Hsteps).
  exists optimizer, schedule. split; [exact Hcfg|].
  rewrite Hsteps. vm_compute. reflexivity.
Defined.

(** ** The data loaders *)

Lemma get_dataloader_fresh (F : Type) (trainer : Trainer F) (self : Summarizer F)
      (split_name : string) (is_train : bool) :
  _get_dataloader trainer self None split_name is_train
  = match dict_get (hf_datasets self) split_name with
    | Raise e => Raise e
    | Ok split =>
        let dataset :=
          {| hf_dataset := split;
             ds_tokenizer := tokenizer self;
             max_input_len := Args.max_input_len (args self);
             max_output_len := Args.max_output_len (args self) |} in
        Ok {| dl_dataset := dataset;
              dl_batch_size := Args.batch_size (args self);
              dl_shuffle := negb (use_ddp trainer);
              dl_num_workers := Args.num_workers (args self);
              dl_sampler :=
                if use_ddp trainer
                then Some {| sampler_dataset := dataset;
                             sampler_shuffle := is_train |}
                else None |}
    end.
Proof.
  unfold _get_dataloader, rbind.
  destruct (dict_get (hf_datasets self) split_name); [|reflexivity].
  now destruct (use_ddp trainer).
Qed.


(** X14.  Each of the three loaders is built once: after a call that
    returned, the same call returns the same loader and leaves the cache as
    it is, whatever the module, its datasets or the trainer have become; and
    a call only fills its own slot of the cache. *)
Theorem dataloaders_are_cached (F : Type) (trainer trainer' : Trainer F)
        (self self' : Summarizer F) (loaders loaders' : Loaders)
        (loader : DataLoader) :
  (train_dataloader trainer self loaders = Ok (loader, loaders') ->
   train_dataloader trainer' self' loaders' = Ok (loader, loaders') /\
   val_dataloader_object loaders' = val_dataloader_object loaders /\
   test_dataloader_object loaders' = test_dataloader_object loaders) /\
  (val_dataloader trainer self loaders = Ok (loader, loaders') ->
   val_dataloader trainer' self' loaders' = Ok (loader, loaders') /\
   train_dataloader_object loaders' = train_dataloader_object loaders /\
   test_dataloader_object loaders' = test_dataloader_object loaders) /\
  (test_dataloader trainer self loaders = Ok (loader, loaders') ->
   test_dataloader trainer' self' loaders' = Ok (loader, loaders') /\
   train_dataloader_object loaders' = train_dataloader_object loaders /\
   val_dataloader_object loaders' = val_dataloader_object loaders).
Proof.
  unfold train_dataloader, val_dataloader, test_dataloader, rbind.
  repeat split;
    match goal with
    | H : match ?g with Ok _ => _ | Raise _ => _ end = _ |- _ =>
        destruct g as [built|e]; [|discriminate];
        injection H as <- <-; try reflexivity
    end.
Qed.

Lemma dataloaders_are_cached_witness :
  exists (loader : DataLoader) (loaders : Loaders),
    train_dataloader {| use_ddp := false; world_size := 1; optimizers := [] |}
                     exact_summarizer no_loaders = Ok (loader, loaders) /\
    train_dataloader {| use_ddp := true; world_size := 2; optimizers := [] |}
                     (set_hf_datasets exact_summarizer []) loaders
    = Ok (loader, loaders).
Proof.
  do 2 eexists. split; [reflexivity|].
  apply (proj1 (@dataloaders_are_cached
                  Q {| use_ddp := false; world_size := 1; optimizers := [] |}
                  {| use_ddp := true; world_size := 2; optimizers := [] |}
                  exact_summarizer (set_hf_datasets exact_summarizer [])
                  no_loaders _ _)).
  reflexivity.
Defined.

(** X15.  A loader built by [_get_dataloader] never has both a sampler and
    [shuffle=True].  Without distributed training it has no sampler and
    shuffles, for the validation and test splits as for the training split;
    under distributed training it does not shuffle, and its sampler, over
    the same dataset, shuffles for the training split only. *)
Theorem dataloader_shuffle_or_sampler (F : Type) (trainer : Trainer F)
        (self : Summarizer F) (split_name : string) (is_train : bool)
        (loader : DataLoader) :
  _get_dataloader trainer self None split_name is_train = Ok loader ->
  dl_shuffle loader = negb (use_ddp trainer) /\
  (dl_sampler loader = None <-> use_ddp trainer = false) /\
  (forall sampler : DistributedSampler,
      dl_sampler loader = Some sampler ->
      dl_shuffle loader = false /\
      sampler_shuffle sampler = is_train /\
      sampler_dataset sampler = dl_dataset loader).
Proof.
  rewrite get_dataloader_fresh.
  destruct (dict_get (hf_datasets self) split_name) as [split|e]; [|discriminate].
  cbv zeta. intros Hl. injection Hl as <-. cbn.
  destruct (use_ddp trainer); cbn; repeat split;
    try discriminate; try congruence;
    try (intros Hx; discriminate);
    match goal with
    | Hs : Some _ = Some _ |- _ => injection Hs as <-; reflexivity
    | Hs : None = Some _ |- _ => discriminate
    | _ => idtac
    end.
Qed.

Lemma dataloader_shuffle_or_sampler_witness :
  exists loader : DataLoader,
    _get_dataloader {| use_ddp := false; world_size := 1; optimizers := [] |}
                    exact_summarizer None "train" false = Ok loader /\
    dl_shuffle loader = true /\ dl_sampler loader = None.
Proof.
  eexists. split; [reflexivity|].
  destruct (@dataloader_shuffle_or_sampler
              Q {| use_ddp := false; world_size := 1; optimizers := [] |}
              exact_summarizer "train" false _ eq_refl) as (Hsh & Hs & _).
  split; [exact Hsh|]. apply Hs. reflexivity.
Defined.


(** X17.  With a tokenizer that honours truncation, every example of the
    dataset of a freshly built loader is within the maximum lengths of the
    arguments of the module. *)
Theorem dataloader_examples_bounded (F : Type) (trainer : Trainer F)
        (self : Summarizer F) (split_name : string) (is_train : bool)
        (loader : DataLoader) (idx : nat) (input_ids output_ids : tensor1) :
  truncates (tokenizer self) ->
  (0 <= Args.max_input_len (args self))%Z ->
  (0 <= Args.max_output_len (args self))%Z ->
  _get_dataloader trainer self None split_name is_train = Ok loader ->
  getitem (dl_dataset loader) idx = Ok (input_ids, output_ids) ->
  (Z.of_nat (length input_ids) <= Args.max_input_len (args self))%Z /\
  (Z.of_nat (length output_ids) <= Args.max_output_len (args self))%Z.
Proof.
  intros Htr Hin Hout Hload Hget.
  rewrite get_dataloader_fresh in Hload.
  destruct (dict_get (hf_datasets self) split_name) as [split|e]; [|discriminate].
  cbv zeta in Hload. injection Hload as <-. cbn [dl_dataset] in Hget.
  exact (@getitem_bound
           {| hf_dataset := split;
              ds_tokenizer := tokenizer self;
              max_input_len := Args.max_input_len (args self);
              max_output_len := Args.max_output_len (args self) |}
           idx input_ids output_ids Htr Hin Hout Hget).
Qed.

Lemma dataloader_examples_bounded_witness :
  exists (loader : DataLoader) (input_ids output_ids : tensor1),
    _get_dataloader {| use_ddp := false; world_size := 1; optimizers := [] |}
                    exact_summarizer None "train" true = Ok loader /\
    getitem (dl_dataset loader) 0 = Ok (input_ids, output_ids) /\
    (Z.of_nat (length input_ids) <= 512)%Z /\
    (Z.of_nat (length output_ids) <= 256)%Z.
Proof.
  assert (Hin : (0 <= Args.max_input_len (args exact_summarizer))%Z)
    by (unfold exact_summarizer; simpl; lia).
  assert (Hout : (0 <= Args.max_output_len (args exact_summarizer))%Z)
    by (unfold exact_summarizer; simpl; lia).
  do 3 eexists. split; [reflexivity|]. split; [reflexivity|].
  exact (@dataloader_examples_bounded
           Q {| use_ddp := false; world_size := 1; optimizers := [] |}
           exact_summarizer "train" true _ 0 _ _
           (example_tokenizer_truncates 1) Hin Hout eq_refl eq_refl).
Defined.
